(** * CerneyDesigns: the design-request intake pipeline of [server.js]

    A shallow embedding of the request handler [POST /api/submit-request]
    and of the helpers it calls ([sanitizeInput], [sanitizeForPDF],
    [sanitizeFilename], [validateSubmitRequest], [readRequests],
    [writeRequests], [generatePDF], [uploadPDFToSupabase],
    [saveRequestToDatabase]), followed by the properties of the
    specification that were checked against it. *)

From Stdlib Require Import List NArith ZArith Bool String Ascii Lia.
From Stdlib Require Import DecimalString DecimalZ DecimalPos.
From Stdlib Require DecimalFacts.
Import ListNotations.

Local Open Scope string_scope.
Local Open Scope list_scope.
Local Open Scope N_scope.

(** ** JavaScript strings

    A JavaScript string is a sequence of UTF-16 code units; the regular
    expressions of [server.js] carry no [u] flag, so they work on code
    units. *)

Definition char := N.
Definition jsstring := list char.

(** String literals of the source, written as Rocq strings. *)
Definition lit (s : string) : jsstring :=
  map N_of_ascii (list_ascii_of_string s).

Definition char_eqb (a b : char) : bool := N.eqb a b.

Fixpoint str_eqb (a b : jsstring) : bool :=
  match a, b with
  | [], [] => true
  | x :: a', y :: b' => char_eqb x y && str_eqb a' b'
  | _, _ => false
  end.

Definition between (lo hi c : char) : bool := (lo <=? c) && (c <=? hi).

Fixpoint starts_with (prefix s : jsstring) : bool :=
  match prefix, s with
  | [], _ => true
  | p :: prefix', c :: s' => char_eqb p c && starts_with prefix' s'
  | _ :: _, [] => false
  end.

(** [String.prototype.includes]. *)
Fixpoint includes (s needle : jsstring) : bool :=
  starts_with needle s ||
  match s with
  | [] => false
  | _ :: s' => includes s' needle
  end.

(** [s.substring(0, n)]. *)
Definition substring0 (n : nat) (s : jsstring) : jsstring := firstn n s.

(** [s.replace(/[class]/g, '')]: drop every code unit of the class. *)
Definition remove_all (class : char -> bool) (s : jsstring) : jsstring :=
  filter (fun c => negb (class c)) s.

(** ** Input sanitization helpers (server.js, lines 107-122) *)

(** [/\0/] *)
Definition is_nul (c : char) : bool := char_eqb c 0.

(** [/[\x00-\x08\x0B\x0C\x0E-\x1F\x7F]/] *)
Definition pdf_unsafe (c : char) : bool :=
  between 0 8 c || char_eqb c 11 || char_eqb c 12 || between 14 31 c
  || char_eqb c 127.

Definition is_digit (c : char) : bool := between 48 57 c.
Definition is_lower (c : char) : bool := between 97 122 c.
Definition is_upper (c : char) : bool := between 65 90 c.
Definition is_alnum (c : char) : bool := is_lower c || is_upper c || is_digit c.

Definition DOT : char := 46.
Definition UNDERSCORE : char := 95.
Definition HYPHEN : char := 45.
Definition SLASH : char := 47.
Definition BACKSLASH : char := 92.

(** [/[^a-zA-Z0-9._-]/]: the class is negated, so [filename_char] is the
    set of code units that survive. *)
Definition filename_char (c : char) : bool :=
  is_alnum c || char_eqb c DOT || char_eqb c UNDERSCORE || char_eqb c HYPHEN.

(** The characters [sanitizeFilename] lets through. *)
Definition filename_safe (c : char) : Prop :=
  is_alnum c = true \/ c = DOT \/ c = UNDERSCORE \/ c = HYPHEN.

(** [function sanitizeFilename(filename)] *)
Definition sanitizeFilename (filename : jsstring) : jsstring :=
  substring0 255 (remove_all (fun c => negb (filename_char c)) filename).

(** [function sanitizeForPDF(input)] on a string argument; the
    [typeof input !== 'string'] branch is [sanitizeForPDF] below. *)
Definition sanitizeForPDF_string (input : jsstring) : jsstring :=
  substring0 (N.to_nat 10000) (remove_all pdf_unsafe input).

(** [/\s/], which is also the set [String.prototype.trim] strips:
    ECMAScript WhiteSpace and LineTerminator. *)
Definition is_space (c : char) : bool :=
  between 9 13 c || char_eqb c 32 || char_eqb c 160 || char_eqb c 5760
  || between 8192 8202 c || char_eqb c 8232 || char_eqb c 8233
  || char_eqb c 8239 || char_eqb c 8287 || char_eqb c 12288
  || char_eqb c 65279.

Fixpoint trim_start (s : jsstring) : jsstring :=
  match s with
  | c :: s' => if is_space c then trim_start s' else s
  | [] => []
  end.

(** [s.trim()], and [.trim()] of a validation chain ([validator.trim]
    without a character list removes [/^\s+|\s+$/]). *)
Definition trim (s : jsstring) : jsstring :=
  rev (trim_start (rev (trim_start s))).

(** [s.split(/[sep]/)]: the pieces between separators, at least one. *)
Fixpoint split_on (sep : char -> bool) (s : jsstring) : list jsstring :=
  match s with
  | [] => [[]]
  | c :: s' =>
      if sep c then [] :: split_on sep s'
      else match split_on sep s' with
           | piece :: rest => (c :: piece) :: rest
           | [] => [[c]]
           end
  end.

(** [n.toString()] for an integral number below 1e21 in magnitude (the
    range of [Date.now()] is within 8.64e15): decimal digits, with a
    leading minus sign when negative. *)
Definition Number_toString (n : Z) : jsstring :=
  lit (DecimalString.NilZero.string_of_int (Z.to_int n)).

(** ** JavaScript values

    Plain data: what [JSON.parse] returns and what object literals of
    strings build.  An object is its list of own properties, in
    insertion order. *)

#[local] Set Warnings "-register-all".

Inductive value : Type :=
| Undefined
| Null
| Bool (b : bool)
| Num (n : Z)
| Str (s : jsstring)
| Arr (items : list value)
| Obj (props : list (jsstring * value)).

(** Truthiness, as [if (v)], [!v] and [v || w] test it. *)
Definition truthy (v : value) : bool :=
  match v with
  | Undefined | Null => false
  | Bool b => b
  | Num n => negb (Z.eqb n 0)
  | Str s => match s with [] => false | _ => true end
  | Arr _ | Obj _ => true
  end.

(** [a || b] *)
Definition or_else (a b : value) : value := if truthy a then a else b.

Fixpoint lookup (k : jsstring) (props : list (jsstring * value)) : value :=
  match props with
  | [] => Undefined
  | (k', v) :: rest => if str_eqb k k' then v else lookup k rest
  end.

(** [o.k] for an object [o]. *)
Definition get (o : value) (k : string) : value :=
  match o with
  | Obj props => lookup (lit k) props
  | _ => Undefined
  end.

Fixpoint assign (k : jsstring) (v : value) (props : list (jsstring * value))
  : list (jsstring * value) :=
  match props with
  | [] => [(k, v)]
  | (k', v') :: rest =>
      if str_eqb k k' then (k, v) :: rest else (k', v') :: assign k v rest
  end.

(** [o.k = v]: replaces the property, or adds it after the others. *)
Definition set (o : value) (k : string) (v : value) : value :=
  match o with
  | Obj props => Obj (assign (lit k) v props)
  | _ => o
  end.

(** [k in o], for an object [o]. *)
Definition has (o : value) (k : string) : bool :=
  match o with
  | Obj props => existsb (fun p => str_eqb (lit k) (fst p)) props
  | _ => false
  end.

(** The value [JSON.parse(JSON.stringify(v))] of a value nested in an
    array or object: a property whose value is [undefined] is left out,
    and an [undefined] array element is written as [null]. *)
Fixpoint jsonify (v : value) : value :=
  match v with
  | Arr items =>
      Arr (map (fun x => match x with Undefined => Null | _ => jsonify x end)
             items)
  | Obj props =>
      Obj ((fix own (ps : list (jsstring * value)) :=
              match ps with
              | [] => []
              | (k, x) :: rest =>
                  match x with
                  | Undefined => own rest
                  | _ => (k, jsonify x) :: own rest
                  end
              end) props)
  | _ => v
  end.

(** ** The PDF document (server.js, lines 253-400)

    [generatePDF] drives a PDFKit document through a fixed sequence of
    calls; the document is that sequence. *)

Record text_options : Type := {
  align : option string;
  indent : option N;
  width : option N
}.

Definition plain : text_options :=
  {| align := None; indent := None; width := None |}.
Definition centered : text_options :=
  {| align := Some "center"; indent := None; width := None |}.
Definition indented : text_options :=
  {| align := None; indent := Some 20; width := None |}.
Definition paragraph : text_options :=
  {| align := Some "left"; indent := Some 20; width := Some 500 |}.

Inductive pdfop : Type :=
| fontSize (points : N)
| font (name : string)
| text (s : jsstring) (options : text_options)
| moveDown (tenths : N).                (* [moveDown(0.5)] is [moveDown 5] *)

(** The heading of the Design Preferences section. *)
Definition heading : pdfop := text (lit "Design Preferences") plain.

(** ** The world of the server

    The ledger file [data/requests.json], the Supabase bucket and table,
    the objects allocated by the running handler, and a log of what was
    executed. *)

(** The text of a file, by what [JSON.parse] makes of it: a syntax error,
    or a value.  [JSON.stringify(v, null, 2)] writes a text that parses
    to [jsonify v]. *)
Inductive filetext : Type :=
| Malformed
| Json (v : value).

Inductive file : Type :=
| NoFile                    (* [fs.readFile] rejects: ENOENT *)
| Unreadable                (* [fs.readFile] rejects: EACCES, EISDIR, EIO *)
| File (content : filetext).

Definition Buffer := list N.
Definition loc := nat.

(** An element of an array in memory: plain data, or a reference to an
    object of the heap (the array and the variable share the object). *)
Inductive slot : Type :=
| Data (v : value)
| Ref (l : loc).

Inductive Err : Type :=
| IOError
| SyntaxError
| TypeError
| RenderError
| StorageError
| DatabaseError
| Error (message : string).

Inductive event : Type :=
| ReadLedger
| WriteLedger
| RenderPDF
| StorageUpload (key : jsstring)
| DatabaseInsert
| ConsoleError (e : Err).

Record State : Type := {
  disk : file;                          (* DATA_FILE *)
  bucket : list (jsstring * Buffer);    (* objects of the storage bucket *)
  table : list value;                   (* rows of design_requests *)
  heap : list value;                    (* objects of the running handler *)
  log : list event                      (* newest first *)
}.

(** The stages after the ledger: rendering, upload, mirror insert. *)
Definition downstream (e : event) : bool :=
  match e with
  | RenderPDF | StorageUpload _ | DatabaseInsert => true
  | ReadLedger | WriteLedger | ConsoleError _ => false
  end.

(** What the outside decides during one submission. *)
Record Env : Type := {
  now_id : Z;                           (* [Date.now()], line 504 *)
  now_iso : jsstring;                   (* [new Date().toISOString()] *)
  now_file : Z;                         (* [Date.now()], line 537 *)
  write_fails : bool;                   (* [fs.writeFile] rejects *)
  pdfkit : list pdfop -> option Buffer; (* the bytes PDFKit ends with, or
                                           its 'error' event *)
  upload_fails : bool;                  (* the storage answers [error] *)
  insert_fails : bool                   (* the database answers [error] *)
}.

(** ** Computations: state, and exceptions that keep the state *)

Definition M (A : Type) : Type := State -> State * (Err + A).

Definition ret {A} (a : A) : M A := fun st => (st, inr a).

Definition bind {A B} (c : M A) (k : A -> M B) : M B :=
  fun st =>
    match c st with
    | (st', inr a) => k a st'
    | (st', inl e) => (st', inl e)
    end.

Definition throw {A} (e : Err) : M A := fun st => (st, inl e).

(** [try { c } catch (e) { h e }] *)
Definition try_catch {A} (c : M A) (h : Err -> M A) : M A :=
  fun st =>
    match c st with
    | (st', inl e) => h e st'
    | r => r
    end.

Notation "x <- c ;; k" := (bind c (fun x => k))
  (at level 61, c at next level, right associativity).
Notation "c ;; k" := (bind c (fun _ => k))
  (at level 61, right associativity).

Definition emit (e : event) : M unit :=
  fun st =>
    ({| disk := disk st; bucket := bucket st; table := table st;
        heap := heap st; log := e :: log st |}, inr tt).

(** [console.error(..., e)] *)
Definition console_error (e : Err) : M unit := emit (ConsoleError e).

(** An object literal: a new object of the heap. *)
Definition new_object (o : value) : M loc :=
  fun st =>
    ({| disk := disk st; bucket := bucket st; table := table st;
        heap := heap st ++ [o]; log := log st |}, inr (List.length (heap st))).

Definition deref (l : loc) : M value :=
  fun st => (st, inr (nth l (heap st) Undefined)).

Fixpoint update {A} (l : list A) (i : nat) (f : A -> A) : list A :=
  match l, i with
  | [], _ => []
  | x :: l', O => f x :: l'
  | x :: l', S i' => x :: update l' i' f
  end.

(** [l.k = v] on the object at [l]. *)
Definition set_property (l : loc) (k : string) (v : value) : M unit :=
  fun st =>
    ({| disk := disk st; bucket := bucket st; table := table st;
        heap := update (heap st) l (fun o => set o k v); log := log st |},
     inr tt).

(** ** The local ledger (server.js, lines 238-250) *)

Definition fs_readFile : M filetext :=
  emit ReadLedger ;;
  fun st =>
    match disk st with
    | File content => (st, inr content)
    | NoFile | Unreadable => (st, inl IOError)
    end.

Definition JSON_parse (data : filetext) : M value :=
  match data with
  | Json v => ret v
  | Malformed => throw SyntaxError
  end.

(** [async function readRequests()] *)
Definition readRequests : M value :=
  try_catch
    (data <- fs_readFile ;; JSON_parse data)
    (fun _ => ret (Arr [])).

(** [JSON.stringify(requests, null, 2)]: the objects the array refers to
    are read now. *)
Definition JSON_stringify (requests : list slot) : M filetext :=
  fun st =>
    (st, inr (Json (jsonify
       (Arr (map (fun s => match s with
                           | Data v => v
                           | Ref l => nth l (heap st) Undefined
                           end) requests))))).

(** [fs.writeFile(DATA_FILE, data)]; a write that fails leaves the file
    as it was. *)
Definition fs_writeFile (env : Env) (data : filetext) : M unit :=
  emit WriteLedger ;;
  fun st =>
    if write_fails env then (st, inl IOError)
    else ({| disk := File data; bucket := bucket st; table := table st;
             heap := heap st; log := log st |}, inr tt).

(** [async function writeRequests(requests)] *)
Definition writeRequests (env : Env) (requests : list slot) : M unit :=
  data <- JSON_stringify requests ;;
  fs_writeFile env data.

(** [requests.push(request)]: a [TypeError] unless [requests] is an
    array. *)
Definition Array_push (requests : value) (request : loc) : M (list slot) :=
  match requests with
  | Arr items => ret (map Data items ++ [Ref request])
  | _ => throw TypeError
  end.

(** ** The libraries the server requires

    [xss], [validator] and the [Date] formatting are not part of the
    repository; the handler is parametric in them. *)

Class Libs : Type := {
  (** [require('xss')] *)
  xss : jsstring -> jsstring;
  (** [.escape()] of a chain: [validator.escape] *)
  escape : jsstring -> jsstring;
  (** [.isEmail()] and [.normalizeEmail()] *)
  isEmail : jsstring -> bool;
  normalizeEmail : jsstring -> jsstring;
  (** [validator.isURL(url, { require_protocol: false })] *)
  isURL : jsstring -> bool;
  (** the number of characters [.isLength()] compares with its bounds *)
  charCount : jsstring -> N;
  (** [new Date(createdAt).toLocaleString()] *)
  toLocaleString : value -> jsstring
}.

Section Server.

Context {libs : Libs}.

(** [function sanitizeInput(input)] *)
Definition sanitizeInput (input : value) : value :=
  match input with
  | Str s => Str (xss (remove_all is_nul s))
  | _ => input
  end.

(** [function sanitizeForPDF(input)] *)
Definition sanitizeForPDF (input : value) : jsstring :=
  match input with
  | Str s => sanitizeForPDF_string s
  | _ => []
  end.

(** ** Validation middleware (server.js, lines 126-199) *)

Inductive Field : Set :=
| clientName | email | phoneNumber | projectType | timeline | budget
| designDescription | referenceWebsites | colorPreferences
| stylePreferences | keyFeatures.

Definition Field_eqb (a b : Field) : bool :=
  match a, b with
  | clientName, clientName | email, email | phoneNumber, phoneNumber
  | projectType, projectType | timeline, timeline | budget, budget
  | designDescription, designDescription
  | referenceWebsites, referenceWebsites
  | colorPreferences, colorPreferences
  | stylePreferences, stylePreferences | keyFeatures, keyFeatures => true
  | _, _ => false
  end.

(** [req.body]: each form field is a string, or absent ([None]); the form
    of [script.js] posts strings. *)
Definition Body := Field -> option jsstring.

Definition with_field (b : Body) (f : Field) (v : option jsstring) : Body :=
  fun g => if Field_eqb f g then v else b g.

(** One step of a chain: a sanitizer rewrites the value, a validator
    records its message ([.withMessage]) when the value fails it. *)
Inductive item : Type :=
| sanitizer (f : jsstring -> jsstring)
| validator (ok : jsstring -> bool) (message : string).

Record chain : Type := {
  field : Field;
  optional : bool;
  items : list item
}.

(** [.isLength({ min, max })] *)
Definition isLength (min max : N) : jsstring -> bool :=
  fun v => (min <=? charCount v) && (charCount v <=? max).

(** [.isIn([...])] *)
Definition isIn (options : list string) : jsstring -> bool :=
  fun v => existsb (fun o => str_eqb v (lit o)) options.

(** [/^[\d\s\-\(\)\+\.]+$/.test(value)] behind [if (!value) return true] *)
Definition phone_char (c : char) : bool :=
  is_digit c || is_space c || char_eqb c HYPHEN || char_eqb c 40
  || char_eqb c 41 || char_eqb c 43 || char_eqb c DOT.

Definition phone_ok (v : jsstring) : bool :=
  match v with
  | [] => true
  | _ => forallb phone_char v
  end.

(** The custom check of [referenceWebsites]. *)
Definition websites_ok (v : jsstring) : bool :=
  match v with
  | [] => true
  | _ =>
      let urls :=
        filter (fun url => truthy (Str url))
          (map trim (split_on (fun c => char_eqb c 10 || char_eqb c 44) v)) in
      forallb (fun url => isURL url || (List.length url <? 100)%nat) urls
  end.

Definition validateSubmitRequest : list chain :=
  [ {| field := clientName; optional := false;
       items := [ sanitizer trim;
                  validator (isLength 1 100)
                    "Name must be between 1 and 100 characters";
                  sanitizer escape ] |};
    {| field := email; optional := false;
       items := [ sanitizer trim;
                  validator isEmail "Invalid email address";
                  sanitizer normalizeEmail;
                  validator (isLength 0 255) "Email too long" ] |};
    {| field := phoneNumber; optional := true;
       items := [ sanitizer trim;
                  validator (isLength 0 20) "Phone number too long";
                  validator phone_ok "Invalid phone number format";
                  sanitizer escape ] |};
    {| field := projectType; optional := false;
       items := [ sanitizer trim;
                  validator
                    (isIn ["website"; "redesign"; "landing"; "ecommerce";
                           "other"])
                    "Invalid project type" ] |};
    {| field := timeline; optional := false;
       items := [ sanitizer trim;
                  validator (isIn ["asap"; "1month"; "2-3months"; "flexible"])
                    "Invalid timeline selection" ] |};
    {| field := budget; optional := false;
       items := [ sanitizer trim;
                  validator
                    (isIn ["200-500"; "500-1000"; "1000-2500"; "2500-5000";
                           "5000+"])
                    "Invalid budget selection" ] |};
    {| field := designDescription; optional := false;
       items := [ sanitizer trim;
                  validator (isLength 10 5000)
                    "Description must be between 10 and 5000 characters";
                  sanitizer escape ] |};
    {| field := referenceWebsites; optional := true;
       items := [ sanitizer trim;
                  validator (isLength 0 2000) "Reference websites too long";
                  validator websites_ok "Invalid URL in reference websites" ] |};
    {| field := colorPreferences; optional := true;
       items := [ sanitizer trim;
                  validator (isLength 0 200) "Color preferences too long";
                  sanitizer escape ] |};
    {| field := stylePreferences; optional := true;
       items := [ sanitizer trim;
                  validator
                    (isIn ["modern"; "minimalist"; "bold"; "professional";
                           "creative"; "elegant"; "playful"; "rustic";
                           "industrial"; "vintage"; "luxury"; "tech";
                           "corporate"; "artistic"; "clean"; EmptyString])
                    "Invalid style preference selection";
                  sanitizer escape ] |};
    {| field := keyFeatures; optional := true;
       items := [ sanitizer trim;
                  validator (isLength 0 2000) "Key features too long";
                  sanitizer escape ] |} ].

(** Running a chain on a value: the steps run in order and none stops
    the chain; the result is the sanitized value and the messages of
    the validators that failed. *)
Fixpoint run_items (its : list item) (v : jsstring) : jsstring * list string :=
  match its with
  | [] => (v, [])
  | sanitizer f :: rest => run_items rest (f v)
  | validator ok message :: rest =>
      let (v', errs) := run_items rest v in
      (v', if ok v then errs else message :: errs)
  end.

(** A chain on a request: an [optional()] chain skips an absent field;
    otherwise an absent field is read as the empty string, and the
    sanitized value is written back to [req.body]. *)
Definition run_chain (c : chain) (body : Body) : Body * list string :=
  match body (field c), optional c with
  | None, true => (body, [])
  | v, _ =>
      let (v', errs) :=
        run_items (items c) (match v with Some s => s | None => [] end) in
      (with_field body (field c) (Some v'), errs)
  end.

(** The middleware array: chains run in order; the errors accumulate in
    the request ([validationResult(req).array()]). *)
Fixpoint run_chains (cs : list chain) (body : Body) : Body * list string :=
  match cs with
  | [] => (body, [])
  | c :: rest =>
      let (body', errs) := run_chain c body in
      let (body'', errs') := run_chains rest body' in
      (body'', errs ++ errs')
  end.

(** [validationResult(req).array()] after the middleware ran. *)
Definition validation_errors (body : Body) : list string :=
  snd (run_chains validateSubmitRequest body).

(** [req.body] after the middleware ran. *)
Definition sanitized (body : Body) : Body :=
  fst (run_chains validateSubmitRequest body).

Definition description_message : string :=
  "Description must be between 10 and 5000 characters".

(** What a chain reads of a field: its text, or the empty string when
    the field is absent. *)
Definition field_text (body : Body) (f : Field) : jsstring :=
  match body f with
  | Some s => s
  | None => []
  end.

(** The messages a chain can report. *)
Definition messages (c : chain) : list string :=
  flat_map (fun it => match it with
                      | validator _ message => [message]
                      | sanitizer _ => []
                      end) (items c).

Definition project_types : list string :=
  ["website"; "redesign"; "landing"; "ecommerce"; "other"].
Definition timelines : list string :=
  ["asap"; "1month"; "2-3months"; "flexible"].
Definition budgets : list string :=
  ["200-500"; "500-1000"; "1000-2500"; "2500-5000"; "5000+"].

(** The fields whose chain is [optional()], and the chains of the
    fields other than [f]. *)
Definition optional_fields : list Field :=
  [phoneNumber; referenceWebsites; colorPreferences; stylePreferences;
   keyFeatures].

Definition chains_but (f : Field) : list chain :=
  filter (fun c => negb (Field_eqb (field c) f)) validateSubmitRequest.

(** The chains of the other fields report nothing. *)
Definition valid_elsewhere (f : Field) (body : Body) : Prop :=
  snd (run_chains
         (filter (fun c => negb (Field_eqb (field c) f)) validateSubmitRequest)
         body) = [].

(** ** The calls of [generatePDF] *)

(** [sanitizeForPDF(request.k || '')] *)
Definition safe (request : value) (k : string) : jsstring :=
  sanitizeForPDF (or_else (get request k) (Str [])).

(** [if (s)] on a string. *)
Definition nonempty (s : jsstring) : bool := truthy (Str s).

(** The calls made on [doc], section by section. *)

Definition header (request : value) : list pdfop :=
  [ fontSize 24; font "Helvetica-Bold";
    text (lit "Design Request Submission") centered;
    moveDown 5;
    fontSize 10; font "Helvetica";
    text (lit "Submitted: " ++ toLocaleString (get request "createdAt"))
      centered;
    moveDown 10 ].

Definition client_information (request : value) : list pdfop :=
  [ fontSize 16; font "Helvetica-Bold"; text (lit "Client Information") plain;
    moveDown 3;
    fontSize 12; font "Helvetica";
    text (lit "Name: " ++ safe request "clientName") indented;
    text (lit "Email: " ++ safe request "email") indented ]
  ++ (if nonempty (safe request "phoneNumber")
      then [ text (lit "Phone: " ++ safe request "phoneNumber") indented ]
      else [])
  ++ [ moveDown 5 ].

Definition project_details (request : value) : list pdfop :=
  [ fontSize 16; font "Helvetica-Bold"; text (lit "Project Details") plain;
    moveDown 3;
    fontSize 12; font "Helvetica";
    text (lit "Project Type: " ++ safe request "projectType") indented;
    text (lit "Timeline: " ++ safe request "timeline") indented;
    text (lit "Budget Range: $" ++ safe request "budget") indented;
    moveDown 5 ].

Definition project_description (request : value) : list pdfop :=
  [ fontSize 16; font "Helvetica-Bold"; text (lit "Project Description") plain;
    moveDown 3;
    fontSize 11; font "Helvetica";
    text (safe request "designDescription") paragraph;
    moveDown 5 ].

Definition design_preferences (request : value) : list pdfop :=
  let safeColorPrefs := safe request "colorPreferences" in
  let safeStylePrefs := safe request "stylePreferences" in
  if nonempty safeColorPrefs || nonempty safeStylePrefs then
    [ fontSize 16; font "Helvetica-Bold";
      text (lit "Design Preferences") plain;
      moveDown 3;
      fontSize 12; font "Helvetica" ]
    ++ (if nonempty safeColorPrefs
        then [ text (lit "Color Preferences: " ++ safeColorPrefs) indented ]
        else [])
    ++ (if nonempty safeStylePrefs
        then [ text (lit "Style Preferences: " ++ safeStylePrefs) indented ]
        else [])
    ++ [ moveDown 5 ]
  else [].

Definition key_features (request : value) : list pdfop :=
  let safeKeyFeatures := safe request "keyFeatures" in
  if nonempty safeKeyFeatures then
    [ fontSize 16; font "Helvetica-Bold";
      text (lit "Key Features Required") plain;
      moveDown 3;
      fontSize 11; font "Helvetica"; text safeKeyFeatures paragraph;
      moveDown 5 ]
  else [].

Definition reference_websites (request : value) : list pdfop :=
  let safeRefWebsites := safe request "referenceWebsites" in
  if nonempty safeRefWebsites then
    [ fontSize 16; font "Helvetica-Bold";
      text (lit "Reference Websites") plain;
      moveDown 3;
      fontSize 11; font "Helvetica"; text safeRefWebsites paragraph ]
  else [].

Definition footer (request : value) : list pdfop :=
  [ moveDown 20;
    fontSize 8; font "Helvetica";
    text (lit "Request ID: " ++ safe request "id") centered ].

(** All the calls between the creation of [doc] and [doc.end()]. *)
Definition pdf_calls (request : value) : list pdfop :=
  header request ++ client_information request ++ project_details request
  ++ project_description request ++ design_preferences request
  ++ key_features request ++ reference_websites request ++ footer request.

(** ** Supabase (server.js, lines 20-31 and 403-468) *)

Record Config : Type := {
  SUPABASE_URL : option jsstring;
  SUPABASE_SERVICE_ROLE_KEY : option jsstring;
  SUPABASE_STORAGE_BUCKET_NAME : option jsstring
}.

Variable cfg : Config.

Definition env_var (v : option jsstring) : value :=
  match v with Some s => Str s | None => Undefined end.

Definition supabaseUrl : value := env_var (SUPABASE_URL cfg).
Definition supabaseServiceKey : value := env_var (SUPABASE_SERVICE_ROLE_KEY cfg).
Definition supabaseBucket : value :=
  or_else (env_var (SUPABASE_STORAGE_BUCKET_NAME cfg))
    (Str (lit "design-requests")).

(** [supabase] is a client ([true]) or [null] ([false]). *)
Definition supabase : bool := truthy supabaseUrl && truthy supabaseServiceKey.

(** A value in a template literal: [String(v)]. *)
Fixpoint to_string (v : value) : jsstring :=
  match v with
  | Str s => s
  | Undefined => lit "undefined"
  | Null => lit "null"
  | Bool true => lit "true"
  | Bool false => lit "false"
  | Num n => Number_toString n
  | Arr items =>
      (fix join (l : list value) : jsstring :=
         match l with
         | [] => []
         | x :: rest =>
             match x with Undefined | Null => [] | _ => to_string x end
             ++ match rest with [] => [] | _ => lit "," ++ join rest end
         end) items
  | Obj _ => lit "[object Object]"
  end.

(** [function generatePDF(request)]: the promise resolves with the bytes
    PDFKit produced, or rejects on its 'error' event. *)
Definition generatePDF (env : Env) (request : loc) : M Buffer :=
  r <- deref request ;;
  emit RenderPDF ;;
  match pdfkit env (pdf_calls r) with
  | Some bytes => ret bytes
  | None => throw RenderError
  end.

(** [async function uploadPDFToSupabase(pdfBuffer, fileName)] *)
Definition uploadPDFToSupabase (env : Env) (pdfBuffer : Buffer)
    (fileName : jsstring) : M value :=
  if negb supabase then throw (Error "Supabase client not initialized")
  else
    let safeFileName := sanitizeFilename fileName in
    if (N.of_nat (List.length pdfBuffer) =? 0)
    then throw (Error "Invalid PDF buffer")
    else
      let maxSize := 10 * 1024 * 1024 in
      if (maxSize <? N.of_nat (List.length pdfBuffer))
      then throw (Error "PDF file too large")
      else
        emit (StorageUpload safeFileName) ;;
        if upload_fails env then throw StorageError
        else
          (fun st =>
             ({| disk := disk st;
                 bucket := bucket st ++ [(safeFileName, pdfBuffer)];
                 table := table st; heap := heap st; log := log st |},
              inr (Obj [(lit "path", Str safeFileName)]))).

Definition database_row (request : value) : value :=
  Obj [ (lit "id", get request "id");
        (lit "client_name", get request "clientName");
        (lit "email", get request "email");
        (lit "phone_number", or_else (get request "phoneNumber") Null);
        (lit "project_type", get request "projectType");
        (lit "timeline", get request "timeline");
        (lit "budget", get request "budget");
        (lit "design_description", get request "designDescription");
        (lit "reference_websites",
          or_else (get request "referenceWebsites") Null);
        (lit "color_preferences",
          or_else (get request "colorPreferences") Null);
        (lit "style_preferences",
          or_else (get request "stylePreferences") Null);
        (lit "key_features", or_else (get request "keyFeatures") Null);
        (lit "status", get request "status");
        (lit "pdf_url", or_else (get request "pdfUrl") Null);
        (lit "created_at", get request "createdAt") ].

(** [async function saveRequestToDatabase(request)] *)
Definition saveRequestToDatabase (env : Env) (request : loc) : M unit :=
  if negb supabase then throw (Error "Supabase client not initialized")
  else
    r <- deref request ;;
    emit DatabaseInsert ;;
    if insert_fails env then throw DatabaseError
    else
      (fun st =>
         ({| disk := disk st; bucket := bucket st;
             table := table st ++ [database_row r];
             heap := heap st; log := log st |}, inr tt)).

(** ** [POST /api/submit-request] (server.js, lines 476-583) *)

Record Response : Type := {
  status : N;
  json : value
}.

Definition validation_failed (errors : list string) : Response :=
  {| status := 400;
     json := Obj [ (lit "error", Str (lit "Validation failed"));
                   (lit "details", Arr (map (fun m => Str (lit m)) errors)) ] |}.

Definition submitted : Response :=
  {| status := 200;
     json := Obj [ (lit "success", Bool true);
                   (lit "message", Str (lit "Request submitted successfully")) ] |}.

Definition generic_failure : Response :=
  {| status := 500;
     json := Obj [ (lit "error",
                    Str (lit "An error occurred while processing your request. Please try again later.")) ] |}.

(** [x?.trim() || ''] *)
Definition trimmed (x : option jsstring) : value :=
  or_else (match x with Some s => Str (trim s) | None => Undefined end)
    (Str []).

(** The object literal of lines 503-518. *)
Definition new_request (env : Env) (body : Body) : value :=
  Obj [ (lit "id", Str (Number_toString (now_id env)));
        (lit "clientName", sanitizeInput (trimmed (body clientName)));
        (lit "email", sanitizeInput (trimmed (body email)));
        (lit "phoneNumber", sanitizeInput (trimmed (body phoneNumber)));
        (lit "projectType", sanitizeInput (trimmed (body projectType)));
        (lit "timeline", sanitizeInput (trimmed (body timeline)));
        (lit "budget", sanitizeInput (trimmed (body budget)));
        (lit "designDescription",
          sanitizeInput (trimmed (body designDescription)));
        (lit "referenceWebsites",
          sanitizeInput (trimmed (body referenceWebsites)));
        (lit "colorPreferences",
          sanitizeInput (trimmed (body colorPreferences)));
        (lit "stylePreferences",
          sanitizeInput (trimmed (body stylePreferences)));
        (lit "keyFeatures", sanitizeInput (trimmed (body keyFeatures)));
        (lit "status", Str (lit "pending_review"));
        (lit "createdAt", Str (now_iso env)) ].

(** A handler starts with no object of its own. *)
Definition enter : M unit :=
  fun st =>
    ({| disk := disk st; bucket := bucket st; table := table st;
        heap := []; log := log st |}, inr tt).

(** Lines 503-523: build the record and save it in the ledger. *)
Definition save_request (env : Env) (body : Body) : M loc :=
  request <- new_object (new_request env body) ;;
  requests <- readRequests ;;
  requests <- Array_push requests request ;;
  writeRequests env requests ;;
  ret request.

(** Line 537: the name suggested for the PDF. *)
Definition pdf_fileName (env : Env) (request : value) : jsstring :=
  lit "design-request-" ++ to_string (get request "id") ++ lit "-"
  ++ Number_toString (now_file env) ++ lit ".pdf".

(** Line 544: the public address of the uploaded PDF. *)
Definition public_url (fileName : jsstring) : jsstring :=
  to_string supabaseUrl ++ lit "/storage/v1/object/public/"
  ++ to_string supabaseBucket ++ lit "/" ++ fileName.

(** Lines 533-556: generate the PDF and upload it to Supabase. *)
Definition attach_pdf (env : Env) (request : loc) : M unit :=
  try_catch
    (pdfBuffer <- generatePDF env request ;;
     r <- deref request ;;
     let fileName := pdf_fileName env r in
     if supabase then
       try_catch
         (uploadResult <- uploadPDFToSupabase env pdfBuffer fileName ;;
          let pdfUrl := public_url fileName in
          set_property request "pdfUrl" (Str pdfUrl))
         (fun uploadError => console_error uploadError)
     else ret tt)
    (fun pdfError => console_error pdfError).

(** Lines 558-567: save the request to the Supabase database. *)
Definition mirror (env : Env) (request : loc) : M unit :=
  if supabase then
    try_catch (saveRequestToDatabase env request)
      (fun dbError => console_error dbError)
  else ret tt.

Definition submit_request (env : Env) (req_body : Body) : M Response :=
  enter ;;
  try_catch
    (let (body, errors) := run_chains validateSubmitRequest req_body in
     match errors with
     | _ :: _ => ret (validation_failed errors)
     | [] =>
         request <- save_request env body ;;
         attach_pdf env request ;;
         mirror env request ;;
         ret submitted
     end)
    (fun error => console_error error ;; ret generic_failure).

(** The state a handler starts in. *)
Definition entered (st : State) : State := fst (enter st).

(** What [readRequests] returns in a state. *)
Definition ledger (st : State) : Err + value := snd (readRequests st).

(** Rendering and publishing both succeed: PDFKit ends with bytes, the
    client is configured, the bytes pass the size checks and the storage
    accepts them. *)
Definition published (env : Env) (request : value) : bool :=
  match pdfkit env (pdf_calls request) with
  | Some pdfBuffer =>
      supabase
      && negb (N.of_nat (List.length pdfBuffer) =? 0)
      && negb (10 * 1024 * 1024 <? N.of_nat (List.length pdfBuffer))
      && negb (upload_fails env)
  | None => false
  end.

(** The record a submission adds to the ledger. *)
Definition record_of (submission : Env * Body) : value :=
  new_request (fst submission) (sanitized (snd submission)).

(** Submissions handled one after the other. *)
Fixpoint serve (submissions : list (Env * Body)) (st : State) : State :=
  match submissions with
  | [] => st
  | (env, body) :: rest => serve rest (fst (submit_request env body st))
  end.

(** [ensureDataDir] on a new installation: the ledger is the empty
    array. *)
Definition installed : State :=
  {| disk := File (Json (Arr [])); bucket := []; table := []; heap := [];
     log := [] |}.

End Server.

(** ** CORS (server.js, lines 50-78)

    The origins allowed, and the test of a request's [Origin] against
    them.  An entry with a star is turned into a regular expression by
    [allowed.replace('*', '.*')]; the expressions modelled are those
    made of plain characters, dots and starred plain characters or
    dots, which is what an origin with stars gives.  Any other pattern
    is [None]. *)

Inductive atom : Type :=
| Lit (c : char)
| AnyChar.

(** An atom, starred or not. *)
Definition token : Type := (atom * bool)%type.

(** [.] matches every code unit but the line terminators. *)
Definition is_line_terminator (c : char) : bool :=
  char_eqb c 10 || char_eqb c 13 || char_eqb c 8232 || char_eqb c 8233.

Definition atom_accepts (a : atom) (c : char) : bool :=
  match a with
  | Lit x => char_eqb x c
  | AnyChar => negb (is_line_terminator c)
  end.

Definition STAR : char := 42.

(** The syntax characters of a pattern. *)
Definition is_syntax_char (c : char) : bool :=
  existsb (char_eqb c) (lit "\^$.*+?()[]{}|").

Definition atom_of (c : char) : option atom :=
  if char_eqb c DOT then Some AnyChar
  else if is_syntax_char c then None
  else Some (Lit c).

(** [new RegExp(pattern)], on the patterns modelled. *)
Fixpoint RegExp (pattern : jsstring) : option (list token) :=
  match pattern with
  | [] => Some []
  | c :: rest =>
      match atom_of c with
      | None => None
      | Some a =>
          match rest with
          | c' :: rest' =>
              if char_eqb c' STAR
              then option_map (cons (a, true)) (RegExp rest')
              else option_map (cons (a, false)) (RegExp rest)
          | [] => Some [(a, false)]
          end
      end
  end.

(** A match of the whole expression at the start of [s]. *)
Fixpoint match_here (re : list token) (s : jsstring) {struct re} : bool :=
  match re with
  | [] => true
  | (a, false) :: re' =>
      match s with
      | c :: s' => atom_accepts a c && match_here re' s'
      | [] => false
      end
  | (a, true) :: re' =>
      (fix star (s : jsstring) : bool :=
         match_here re' s
         || match s with
            | c :: s' => atom_accepts a c && star s'
            | [] => false
            end) s
  end.

(** [re.test(s)]: a match starting anywhere in [s]. *)
Fixpoint test (re : list token) (s : jsstring) : bool :=
  match_here re s
  || match s with
     | _ :: s' => test re s'
     | [] => false
     end.

(** [s.replace('*', '.*')]: the first star only. *)
Fixpoint replace_star (s : jsstring) : jsstring :=
  match s with
  | [] => []
  | c :: s' => if char_eqb c STAR then DOT :: STAR :: s' else c :: replace_star s'
  end.

Definition default_origins : list jsstring :=
  [ lit "http://localhost:3000"; lit "https://cerneydesigns.com";
    lit "https://*.vercel.app" ].

(** [const allowedOrigins], from [process.env.ALLOWED_ORIGINS]. *)
Definition allowedOrigins (ALLOWED_ORIGINS : option jsstring) : list jsstring :=
  match ALLOWED_ORIGINS with
  | Some (c :: s) => split_on (fun x => char_eqb x 44) (c :: s)
  | _ => default_origins
  end.

(** The callback of [allowedOrigins.some] on one entry. *)
Definition origin_matches (allowed origin : jsstring) : option bool :=
  if includes allowed [STAR]
  then option_map (fun re => test re origin) (RegExp (replace_star allowed))
  else Some (str_eqb allowed origin).

(** [allowedOrigins.some(...)]: the entries are tried in order, up to
    the first that matches. *)
Fixpoint isAllowed (allowed : list jsstring) (origin : jsstring) : option bool :=
  match allowed with
  | [] => Some false
  | a :: rest =>
      match origin_matches a origin with
      | Some true => Some true
      | Some false => isAllowed rest origin
      | None => None
      end
  end.

(** An error handed to [next]: the properties the error middleware
    reads. *)
Record ExpressError : Type := {
  err_type : option jsstring;
  err_message : option jsstring;
  err_status : option N
}.

Definition cors_error : ExpressError :=
  {| err_type := None; err_message := Some (lit "Not allowed by CORS");
     err_status := None |}.

(** The [origin] function given to [cors]: [inr tt] is
    [callback(null, true)], [inl e] is [callback(e)]. *)
Definition cors_origin (ALLOWED_ORIGINS origin : option jsstring)
  : option (ExpressError + unit) :=
  match origin with
  | None | Some [] => Some (inr tt)
  | Some o =>
      option_map (fun ok : bool => if ok then inr tt else inl cors_error)
        (isAllowed (allowedOrigins ALLOWED_ORIGINS) o)
  end.

(** An origin in which the pattern of [https://*.vercel.app] is found:
    [https://], any text, any character, [vercel], any character,
    [app], anywhere in the origin. *)
Definition vercel_like (origin : jsstring) : Prop :=
  exists before mid c1 c2 after,
    origin = before ++ lit "https://" ++ mid ++ c1 :: lit "vercel"
                    ++ c2 :: lit "app" ++ after
    /\ Forall (fun c => is_line_terminator c = false) mid
    /\ is_line_terminator c1 = false
    /\ is_line_terminator c2 = false.

(** ** Error handling middleware (server.js, lines 603-619) *)

Definition option_eqb (a : option jsstring) (b : jsstring) : bool :=
  match a with
  | Some s => str_eqb s b
  | None => false
  end.

Definition error_handler (err : ExpressError) : Response :=
  if option_eqb (err_type err) (lit "entity.parse.failed")
  then {| status := 400;
          json := Obj [(lit "error", Str (lit "Invalid request format"))] |}
  else if option_eqb (err_message err) (lit "Not allowed by CORS")
  then {| status := 403;
          json := Obj [(lit "error", Str (lit "CORS policy violation"))] |}
  else {| status := match err_status err with
                    | Some 0 | None => 500
                    | Some n => n
                    end;
          json := Obj [(lit "error",
                        Str (lit "An error occurred. Please try again later."))] |}.

(** ** The admin listing (server.js, lines 203-216 and 587-601) *)

(** What [authenticateAdmin] reads of a request: the [x-api-key] header
    and the [apiKey] query parameter (a string, or what the query parser
    makes of a repeated or nested parameter). *)
Record AdminRequest : Type := {
  x_api_key : option jsstring;
  query_apiKey : value
}.

(** [a === b] for a value and a string. *)
Definition is_string (v : value) (s : jsstring) : bool :=
  match v with
  | Str t => str_eqb t s
  | _ => false
  end.

Definition not_configured : Response :=
  {| status := 503;
     json := Obj [(lit "error", Str (lit "Admin API not configured"))] |}.

Definition unauthorized : Response :=
  {| status := 401; json := Obj [(lit "error", Str (lit "Unauthorized"))] |}.

Definition fetch_failed : Response :=
  {| status := 500;
     json := Obj [(lit "error", Str (lit "Failed to fetch requests"))] |}.

(** [req.headers['x-api-key'] || req.query.apiKey] *)
Definition presented_key (req : AdminRequest) : value :=
  or_else (env_var (x_api_key req)) (query_apiKey req).

(** [function authenticateAdmin(req, res, next)]: a response, or [None]
    for [next()].  [ADMIN_API_KEY] is [process.env.ADMIN_API_KEY]. *)
Definition authenticateAdmin (ADMIN_API_KEY : option jsstring)
    (req : AdminRequest) : option Response :=
  match ADMIN_API_KEY with
  | Some (c :: k) =>
      if is_string (presented_key req) (c :: k) then None
      else Some unauthorized
  | _ => Some not_configured
  end.

(** The own enumerable properties [{...v}] copies. *)
Fixpoint indexed_from (i : nat) (l : list value) : list (jsstring * value) :=
  match l with
  | [] => []
  | x :: rest => (Number_toString (Z.of_nat i), x) :: indexed_from (S i) rest
  end.

Definition spread (v : value) : list (jsstring * value) :=
  match v with
  | Obj props => props
  | Arr items => indexed_from 0 items
  | Str s => indexed_from 0 (map (fun c => Str [c]) s)
  | _ => []
  end.

(** [email.substring(0, 3) + '***'] *)
Definition masked (email : jsstring) : jsstring :=
  substring0 3 email ++ lit "***".

(** What the listing shows of an email. *)
Definition shown_email (email : jsstring) : jsstring :=
  match email with
  | [] => []
  | _ => masked email
  end.

(** [shown] is [stored] with its email masked: the same properties in
    the same order, with the same values but for [email]. *)
Definition masked_copy (stored shown : value) : Prop :=
  exists props props' e,
    stored = Obj props /\ shown = Obj props'
    /\ lookup (lit "email") props = Str e
    /\ lookup (lit "email") props' = Str (shown_email e)
    /\ (forall k, k <> lit "email" -> lookup k props' = lookup k props)
    /\ map fst props' = map fst props.

(** A record whose [email] is a number other than zero. *)
Definition has_email_number (r : value) (n : Z) : Prop :=
  exists props, r = Obj props /\ get r "email" = Num n /\ n <> 0%Z.

(** The callback of [requests.map]:
    [{...req, email: req.email ? req.email.substring(0, 3) + '***' : ''}]. *)
Definition mask_request (req : value) : Err + value :=
  match req with
  | Null | Undefined => inl TypeError
  | _ =>
      let email := get req "email" in
      if truthy email then
        match email with
        | Str s => inr (Obj (assign (lit "email") (Str (masked s)) (spread req)))
        | _ => inl TypeError
        end
      else inr (Obj (assign (lit "email") (Str []) (spread req)))
  end.

Fixpoint map_requests (requests : list value) : Err + list value :=
  match requests with
  | [] => inr []
  | req :: rest =>
      match mask_request req with
      | inl e => inl e
      | inr r =>
          match map_requests rest with
          | inl e => inl e
          | inr rs => inr (r :: rs)
          end
      end
  end.

(** [requests.map(...)]: a [TypeError] unless [requests] is an array. *)
Definition Array_map (requests : value) : M (list value) :=
  match requests with
  | Arr items =>
      match map_requests items with
      | inr rs => ret rs
      | inl e => throw e
      end
  | _ => throw TypeError
  end.

(** The handler of [GET /api/requests]. *)
Definition get_requests : M Response :=
  try_catch
    (requests <- readRequests ;;
     sanitizedRequests <- Array_map requests ;;
     ret {| status := 200; json := Arr sanitizedRequests |})
    (fun error =>
       console_error error ;; ret fetch_failed).

(** [app.get('/api/requests', authenticateAdmin, ...)] *)
Definition admin_requests (ADMIN_API_KEY : option jsstring)
    (req : AdminRequest) : M Response :=
  match authenticateAdmin ADMIN_API_KEY req with
  | Some response => ret response
  | None => get_requests
  end.

(** ** Start-up (server.js, lines 220-235) *)

(** What the outside decides during [ensureDataDir]: whether the [data]
    directory is there, and whether [mkdir] and [writeFile] reject. *)
Record Boot : Type := {
  dir_exists : bool;
  mkdir_fails : bool;
  init_write_fails : bool
}.

(** [async function ensureDataDir()]; [fs.access(DATA_FILE)] succeeds
    when the file exists. *)
Definition ensureDataDir (boot : Boot) : M unit :=
  (if dir_exists boot then ret tt
   else if mkdir_fails boot then throw IOError else ret tt) ;;
  fun st =>
    match disk st with
    | NoFile =>
        if init_write_fails boot then (st, inl IOError)
        else ({| disk := File (Json (jsonify (Arr [])));
                 bucket := bucket st; table := table st;
                 heap := heap st; log := log st |}, inr tt)
    | _ => (st, inr tt)
    end.

(** ** Words and texts

    The tokens of a plain word, and a text without line terminator. *)

Definition word (w : jsstring) : list token := map (fun c => (Lit c, false)) w.

Definition no_line_terminator (s : jsstring) : Prop :=
  Forall (fun c => is_line_terminator c = false) s.

(** ** Columns and calls

    The columns [saveRequestToDatabase] copies as they are, and those
    it writes as [null] when empty, each with its property of the
    record. *)

Definition copied_columns : list (string * string) :=
  [ ("id", "id"); ("client_name", "clientName"); ("email", "email");
    ("project_type", "projectType"); ("timeline", "timeline");
    ("budget", "budget"); ("design_description", "designDescription");
    ("status", "status"); ("created_at", "createdAt") ].

Definition nullable_columns : list (string * string) :=
  [ ("phone_number", "phoneNumber");
    ("reference_websites", "referenceWebsites");
    ("color_preferences", "colorPreferences");
    ("style_preferences", "stylePreferences");
    ("key_features", "keyFeatures") ].

(** A call on [doc] that writes no character of the class
    [sanitizeForPDF] removes. *)
Definition clean_call (op : pdfop) : Prop :=
  match op with
  | text s _ => Forall (fun c => pdf_unsafe c = false) s
  | _ => True
  end.

(** ** Example inputs

    Stand-ins for the libraries, exact on the inputs used here (short
    ASCII texts without markup): [xss] and [escape] leave such a text as
    it is, [isLength] counts code units. *)

Definition example_libs : Libs :=
  {| xss := fun s => s;
     escape := fun s => s;
     isEmail := fun s => includes s (lit "@");
     normalizeEmail := fun s => s;
     isURL := fun s => includes s (lit ".");
     charCount := fun s => N.of_nat (List.length s);
     toLocaleString := fun v => match v with Str s => s | _ => [] end |}.

Definition example_config : Config :=
  {| SUPABASE_URL := Some (lit "https://example.supabase.co");
     SUPABASE_SERVICE_ROLE_KEY := Some (lit "service-role-key");
     SUPABASE_STORAGE_BUCKET_NAME := None |}.

(** A submission of the form, with the given name, description and
    colour preferences. *)
Definition example_body (name description colors : jsstring) : Body :=
  fun f =>
    match f with
    | clientName => Some name
    | email => Some (lit "ada@example.com")
    | phoneNumber => None
    | projectType => Some (lit "website")
    | timeline => Some (lit "asap")
    | budget => Some (lit "200-500")
    | designDescription => Some description
    | referenceWebsites => None
    | colorPreferences => Some colors
    | stylePreferences => Some []
    | keyFeatures => None
    end.

(** An environment in which every stage succeeds, at the given clock
    reading. *)
Definition example_env (now : Z) : Env :=
  {| now_id := now;
     now_iso := lit "2023-11-14T22:13:20.000Z";
     now_file := now;
     write_fails := false;
     pdfkit := fun _ => Some [37; 80; 68; 70];
     upload_fails := false;
     insert_fails := false |}.

(** The same, with a storage and a database that answer with an error. *)
Definition example_env_stages_fail (now : Z) : Env :=
  {| now_id := now;
     now_iso := lit "2023-11-14T22:13:20.000Z";
     now_file := now;
     write_fails := false;
     pdfkit := fun _ => Some [37; 80; 68; 70];
     upload_fails := true;
     insert_fails := true |}.

(** The same, with a ledger file that cannot be written. *)
Definition example_env_write_fails (now : Z) : Env :=
  {| now_id := now;
     now_iso := lit "2023-11-14T22:13:20.000Z";
     now_file := now;
     write_fails := true;
     pdfkit := fun _ => Some [37; 80; 68; 70];
     upload_fails := false;
     insert_fails := false |}.

Definition example_now : Z := 1700000000000.

Definition ada : Body :=
  example_body (lit "Ada") (lit "A site for my bakery, with a menu.") [].
Definition bob : Body :=
  example_body (lit "Bob") (lit "A portfolio for my photographs.") [].

(** Ada again, with a description of the given text. *)
Definition ada_describes (description : string) : Body :=
  example_body (lit "Ada") (lit description) [].

(** Ada again, with the given colour preferences. *)
Definition ada_prefers (colors : jsstring) : Body :=
  example_body (lit "Ada") (lit "A site for my bakery, with a menu.") colors.

(** An installation without Supabase. *)
Definition example_config_local : Config :=
  {| SUPABASE_URL := None; SUPABASE_SERVICE_ROLE_KEY := None;
     SUPABASE_STORAGE_BUCKET_NAME := None |}.

(** A server whose ledger file is [d], with nothing stored elsewhere. *)
Definition example_state (d : file) : State :=
  {| disk := d; bucket := []; table := []; heap := []; log := [] |}.

(** A record of the ledger. *)
Definition carol : value :=
  Obj [ (lit "id", Str (lit "1700000000000"));
        (lit "clientName", Str (lit "Carol"));
        (lit "email", Str (lit "carol@example.com")) ].

(** * Properties *)

(** ** Strings *)

Lemma filter_fixed {A} (f : A -> bool) (l : list A) :
  Forall (fun x => f x = true) l -> filter f l = l.
Proof.
  induction 1 as [|x l Hx _ IH]; simpl; [reflexivity|].
  now rewrite Hx, IH.
Qed.

Lemma filter_kept {A} (f : A -> bool) (l : list A) :
  Forall (fun x => f x = true) (filter f l).
Proof.
  apply Forall_forall. intros x Hx. now apply filter_In in Hx.
Qed.

Lemma Forall_prefix {A} (P : A -> Prop) (n : nat) (l : list A) :
  Forall P l -> Forall P (firstn n l).
Proof.
  intros H. revert n. induction H; intros [|n]; simpl; auto.
Qed.

(** Cutting a string already stripped of a class, then stripping and
    cutting again, changes nothing. *)
Lemma strip_cut_idempotent (n : nat) (class : char -> bool) (s : jsstring) :
  substring0 n (remove_all class (substring0 n (remove_all class s)))
  = substring0 n (remove_all class s).
Proof.
  unfold substring0, remove_all.
  rewrite (filter_fixed _ (firstn n _)).
  - rewrite firstn_firstn. now rewrite Nat.min_id.
  - apply Forall_prefix, filter_kept.
Qed.

Lemma sanitizeForPDF_string_idempotent (s : jsstring) :
  sanitizeForPDF_string (sanitizeForPDF_string s) = sanitizeForPDF_string s.
Proof. apply strip_cut_idempotent. Qed.

Lemma sanitizeFilename_idempotent (s : jsstring) :
  sanitizeFilename (sanitizeFilename s) = sanitizeFilename s.
Proof. apply strip_cut_idempotent. Qed.

Lemma remove_nul_idempotent (s : jsstring) :
  remove_all is_nul (remove_all is_nul s) = remove_all is_nul s.
Proof. unfold remove_all. apply filter_fixed, filter_kept. Qed.

Lemma filename_char_safe (c : char) : filename_char c = true -> filename_safe c.
Proof.
  unfold filename_char, filename_safe, char_eqb. intros H.
  apply orb_true_iff in H. destruct H as [H|H];
    [apply orb_true_iff in H; destruct H as [H|H];
     [apply orb_true_iff in H; destruct H as [H|H]|]|];
    auto; apply N.eqb_eq in H; auto.
Qed.

(** C4. [sanitizeFilename] returns, for every input, a name made only of
    ASCII letters, digits, dots, underscores and hyphens, at most 255
    code units long.  The suggested name [../../etc/passwd.pdf] becomes
    [....etcpasswd.pdf]: a key with no slash and no backslash, hence
    with no dot-dot followed by a slash or a backslash in it, and which
    is not the segment [..] itself.  The key under which [uploadPDFToSupabase] stores a
    PDF is the sanitized name. *)
Theorem sanitizeFilename_safe :
  (forall filename : jsstring,
      Forall filename_safe (sanitizeFilename filename)
      /\ (List.length (sanitizeFilename filename) <= 255)%nat)
  /\ (let key := sanitizeFilename (lit "../../etc/passwd.pdf") in
      key = lit "....etcpasswd.pdf"
      /\ ~ In SLASH key /\ ~ In BACKSLASH key
      /\ includes key (lit "../") = false
      /\ includes key (lit ".." ++ [BACKSLASH]) = false
      /\ key <> lit "..")
  /\ (forall cfg env pdfBuffer fileName st,
        let st' := fst (uploadPDFToSupabase cfg env pdfBuffer fileName st) in
        bucket st' = bucket st
        \/ bucket st'
           = bucket st ++ [(sanitizeFilename fileName, pdfBuffer)]).
Proof.
  split; [|split].
  - intros filename. split.
    + unfold sanitizeFilename, substring0, remove_all.
      apply Forall_prefix.
      eapply Forall_impl; [|apply filter_kept].
      intros c Hc. apply filename_char_safe.
      cbv beta in Hc. now rewrite negb_involutive in Hc.
    + unfold sanitizeFilename, substring0. apply firstn_le_length.
  - cbv zeta.
    assert (E : sanitizeFilename (lit "../../etc/passwd.pdf")
                = lit "....etcpasswd.pdf") by (vm_compute; reflexivity).
    rewrite E. split; [reflexivity|].
    repeat split; try (vm_compute; reflexivity).
    + vm_compute. intuition discriminate.
    + vm_compute. intuition discriminate.
    + vm_compute. discriminate.
  - intros cfg env pdfBuffer fileName st. cbv zeta.
    unfold uploadPDFToSupabase, bind, emit, throw.
    destruct (negb (supabase cfg)); [now left|].
    destruct (N.of_nat (List.length pdfBuffer) =? 0); [now left|].
    destruct (_ <? _); [now left|].
    destruct (upload_fails env); [now left | now right].
Qed.

(** ** Sanitization *)

Section Sanitization.

Context {libs : Libs}.

Lemma sanitizeForPDF_idempotent (v : value) :
  sanitizeForPDF (Str (sanitizeForPDF v)) = sanitizeForPDF v.
Proof.
  destruct v; try reflexivity. apply sanitizeForPDF_string_idempotent.
Qed.

(** [sanitizeInput] repeats [xss]: it is idempotent as far as [xss] is,
    on texts without NUL, and keeps them without NUL. *)
Lemma sanitizeInput_idempotent_if :
  (forall t, xss (xss t) = xss t) ->
  (forall t, remove_all is_nul (xss (remove_all is_nul t))
             = xss (remove_all is_nul t)) ->
  forall v, sanitizeInput (sanitizeInput v) = sanitizeInput v.
Proof.
  intros Hidem Hnul [| | | |s| |]; try reflexivity.
  simpl. now rewrite Hnul, Hidem.
Qed.

End Sanitization.

(** ** The PDF document *)

Section Document.

Context {libs : Libs}.

Lemma safe_of_empty (request : value) (k : string) :
  get request k = Str [] -> safe request k = [].
Proof. unfold safe. now intros ->. Qed.

Ltac other_op H :=
  unfold heading, plain, indented, centered, paragraph in H;
  first [ discriminate H
        | injection H as H; vm_compute in H; discriminate H ].

Lemma heading_only_in_section (request : value) :
  In heading (pdf_calls request) -> In heading (design_preferences request).
Proof.
  unfold pdf_calls. rewrite !in_app_iff.
  intros [H|[H|[H|[H|[H|[H|[H|H]]]]]]]; try assumption; exfalso.
  - unfold header in H. simpl in H.
    repeat (destruct H as [H|H]; [other_op H|]). exact H.
  - unfold client_information in H.
    destruct (nonempty (safe request "phoneNumber")); simpl in H;
      repeat (destruct H as [H|H]; [other_op H|]); exact H.
  - unfold project_details in H. simpl in H.
    repeat (destruct H as [H|H]; [other_op H|]). exact H.
  - unfold project_description in H. simpl in H.
    repeat (destruct H as [H|H]; [other_op H|]). exact H.
  - unfold key_features in H.
    destruct (nonempty (safe request "keyFeatures")); simpl in H;
      repeat (destruct H as [H|H]; [other_op H|]); exact H.
  - unfold reference_websites in H.
    destruct (nonempty (safe request "referenceWebsites")); simpl in H;
      repeat (destruct H as [H|H]; [other_op H|]); exact H.
  - unfold footer in H. simpl in H.
    repeat (destruct H as [H|H]; [other_op H|]). exact H.
Qed.

(** C8, amended.  When [colorPreferences] and [stylePreferences] are both
    empty, the document has no Design Preferences section: none of its
    calls is made, and the heading occurs nowhere in the document.  When
    [stylePreferences] is empty and [colorPreferences] is not empty
    after [sanitizeForPDF], the section is the heading followed by the
    colour line alone. *)
Theorem design_preferences_section (request : value) :
  (get request "colorPreferences" = Str [] ->
   get request "stylePreferences" = Str [] ->
   design_preferences request = []
   /\ ~ In heading (pdf_calls request))
  /\ (safe request "colorPreferences" <> [] ->
      get request "stylePreferences" = Str [] ->
      design_preferences request
      = [ fontSize 16; font "Helvetica-Bold"; heading; moveDown 3;
          fontSize 12; font "Helvetica";
          text (lit "Color Preferences: " ++ safe request "colorPreferences")
            indented;
          moveDown 5 ]
      /\ In heading (pdf_calls request)).
Proof.
  split.
  - intros Hc Hs.
    assert (E : design_preferences request = []).
    { unfold design_preferences.
      now rewrite (safe_of_empty _ _ Hc), (safe_of_empty _ _ Hs). }
    split; [exact E|].
    intros H. apply heading_only_in_section in H. now rewrite E in H.
  - intros Hc Hs.
    assert (E : design_preferences request
                = [ fontSize 16; font "Helvetica-Bold"; heading; moveDown 3;
                    fontSize 12; font "Helvetica";
                    text (lit "Color Preferences: "
                          ++ safe request "colorPreferences") indented;
                    moveDown 5 ]).
    { unfold design_preferences. rewrite (safe_of_empty _ "stylePreferences" Hs).
      destruct (safe request "colorPreferences"); [congruence|reflexivity]. }
    split; [exact E|].
    unfold pdf_calls. rewrite !in_app_iff.
    do 4 right. left. rewrite E. simpl. auto.
Qed.

End Document.

(** ** Validation *)

Section Validation.

Context {libs : Libs}.

Lemma Field_eqb_eq (f g : Field) : Field_eqb f g = true <-> f = g.
Proof. destruct f, g; simpl; split; congruence. Qed.

(** A chain reads its own field only. *)
Lemma chain_errors_local (c : chain) (b1 b2 : Body) :
  b1 (field c) = b2 (field c) -> snd (run_chain c b1) = snd (run_chain c b2).
Proof.
  unfold run_chain. intros ->.
  destruct (b2 (field c)), (optional c); try reflexivity;
    now destruct (run_items _ _).
Qed.

(** A chain writes its own field only. *)
Lemma chain_body_local (c : chain) (b : Body) (f : Field) :
  f <> field c -> fst (run_chain c b) f = b f.
Proof.
  unfold run_chain. intros Hf.
  assert (E : forall v, with_field b (field c) v f = b f).
  { intros v. unfold with_field.
    destruct (Field_eqb (field c) f) eqn:Heq; [|reflexivity].
    apply Field_eqb_eq in Heq. congruence. }
  destruct (b (field c)), (optional c); try reflexivity;
    destruct (run_items _ _); simpl; apply E.
Qed.

(** Chains on distinct fields report what each reports on the request as
    it arrived. *)
Lemma chains_errors (cs : list chain) (body : Body) :
  NoDup (map field cs) ->
  snd (run_chains cs body) = flat_map (fun c => snd (run_chain c body)) cs.
Proof.
  revert body. induction cs as [|c cs IH]; intros body Hnd; [reflexivity|].
  inversion Hnd as [|? ? Hnotin Hnd']; subst.
  simpl. destruct (run_chain c body) as [b' e] eqn:Hc.
  destruct (run_chains cs b') as [b'' e'] eqn:Hcs. simpl. f_equal.
  change e' with (snd (b'', e')). rewrite <- Hcs, (IH b' Hnd').
  rewrite !flat_map_concat_map. f_equal. apply map_ext_in.
  intros c' Hin. apply chain_errors_local.
  change b' with (fst (b', e)). rewrite <- Hc. apply chain_body_local.
  intros Heq. apply Hnotin. rewrite <- Heq. now apply in_map.
Qed.

(** With the other fields valid, the verdict is the one on the
    description. *)
Lemma description_decides (body : Body) (d : jsstring) :
  body designDescription = Some d ->
  valid_elsewhere designDescription body ->
  validation_errors body
  = if isLength 10 5000 (trim d) then [] else [description_message].
Proof.
  intros Hd. unfold valid_elsewhere, validation_errors.
  rewrite !chains_errors;
    [| unfold validateSubmitRequest; simpl;
       repeat constructor; simpl; intuition discriminate ..].
  unfold validateSubmitRequest.
  cbn [filter flat_map field negb Field_eqb].
  intros H.
  repeat (apply app_eq_nil in H; destruct H as [?H H]).
  repeat match goal with E : snd _ = [] |- _ => rewrite E; clear E end.
  simpl app. rewrite app_nil_r.
  unfold run_chain. cbn [field optional items]. rewrite Hd. simpl.
  reflexivity.
Qed.
End Validation.

(** ** The handler *)

Section Handler.

Context {libs : Libs}.
Variable cfg : Config.

Ltac run :=
  cbv [save_request attach_pdf mirror bind ret throw try_catch enter emit
       console_error new_object deref set_property fs_readFile JSON_parse
       readRequests JSON_stringify fs_writeFile writeRequests Array_push
       generatePDF uploadPDFToSupabase saveRequestToDatabase];
  cbn [disk bucket table heap log fst snd List.length nth update negb app
       map].

Lemma readRequests_result (st : State) :
  exists v, readRequests st
            = ({| disk := disk st; bucket := bucket st; table := table st;
                  heap := heap st; log := ReadLedger :: log st |}, inr v).
Proof.
  unfold readRequests. run.
  destruct (disk st) as [| |[|v]]; run; eauto.
Qed.

Lemma attach_pdf_total (env : Env) (request : loc) (st : State) :
  exists st', attach_pdf cfg env request st = (st', inr tt)
              /\ disk st' = disk st /\ table st' = table st.
Proof.
  unfold attach_pdf. run.
  destruct (pdfkit env _) as [buf|]; run; [|eauto].
  destruct (supabase cfg); run; [|eauto].
  destruct (N.of_nat (List.length buf) =? 0); run; [eauto|].
  destruct (_ <? _); run; [eauto|].
  destruct (upload_fails env); run; eauto.
Qed.

Lemma mirror_total (env : Env) (request : loc) (st : State) :
  exists st', mirror cfg env request st = (st', inr tt)
              /\ disk st' = disk st /\ bucket st' = bucket st
              /\ heap st' = heap st.
Proof.
  unfold mirror. run. destruct (supabase cfg); run; [|eauto 10].
  destruct (insert_fails env); run; eauto 10.
Qed.

Lemma submit_request_valid (env : Env) (body : Body) (st : State) :
  validation_errors body = [] ->
  submit_request cfg env body st
  = try_catch
      (request <- save_request env (sanitized body) ;;
       attach_pdf cfg env request ;;
       mirror cfg env request ;;
       ret submitted)
      (fun error => console_error error ;; ret generic_failure)
      (entered st).
Proof.
  unfold validation_errors, sanitized, submit_request, entered.
  destruct (run_chains validateSubmitRequest body) as [b errs].
  simpl. intros ->. reflexivity.
Qed.

Lemma submit_request_invalid (env : Env) (body : Body) (st : State) :
  validation_errors body <> [] ->
  submit_request cfg env body st
  = (entered st, inr (validation_failed (validation_errors body))).
Proof.
  unfold validation_errors, submit_request, entered.
  destruct (run_chains validateSubmitRequest body) as [b [|e errs]].
  - now intros [].
  - reflexivity.
Qed.

Lemma ledger_disk (st st' : State) :
  disk st = disk st' -> ledger st = ledger st'.
Proof.
  unfold ledger. run. intros ->. now destruct (disk st') as [| |[|v]].
Qed.

Lemma save_request_result (env : Env) (b : Body) (st : State) :
  let r0 := new_request env b in
  save_request env b (entered st)
  = match ledger st with
    | inr (Arr old) =>
        if write_fails env then
          ({| disk := disk st; bucket := bucket st; table := table st;
              heap := [r0];
              log := WriteLedger :: ReadLedger :: log st |}, inl IOError)
        else
          ({| disk := File (Json (jsonify (Arr (old ++ [r0]))));
              bucket := bucket st; table := table st; heap := [r0];
              log := WriteLedger :: ReadLedger :: log st |}, inr 0%nat)
    | _ =>
        ({| disk := disk st; bucket := bucket st; table := table st;
            heap := [r0]; log := ReadLedger :: log st |}, inl TypeError)
    end.
Proof.
  unfold ledger, entered. run.
  destruct (disk st) as [| |[|v]]; run;
    try (destruct (write_fails env); reflexivity).
  destruct v; run; try reflexivity.
  destruct (write_fails env); run; [reflexivity|].
  now rewrite map_app, map_map, map_id.
Qed.

(** [x?.trim() || ''] is always a string. *)
Lemma trimmed_string (x : option jsstring) : exists s, trimmed x = Str s.
Proof.
  destruct x as [s|]; unfold trimmed, or_else; simpl; [|eauto].
  destruct (trim s); eauto.
Qed.

Ltac strings :=
  repeat match goal with
    | |- context [trimmed ?x] =>
        let s := fresh "s" in
        let E := fresh "E" in
        destruct (trimmed_string x) as [s E]; rewrite E; clear E
    end.

(** The record is an object of strings: JSON keeps it as it is, and it
    is created without [pdfUrl]. *)
Lemma new_request_json (env : Env) (b : Body) :
  jsonify (new_request env b) = new_request env b.
Proof. unfold new_request. strings. reflexivity. Qed.

Lemma new_request_no_pdfUrl (env : Env) (b : Body) :
  has (new_request env b) "pdfUrl" = false
  /\ get (new_request env b) "pdfUrl" = Undefined.
Proof. unfold new_request. strings. split; reflexivity. Qed.

Lemma new_request_set_pdfUrl (env : Env) (b : Body) (url : value) :
  get (set (new_request env b) "pdfUrl" url) "pdfUrl" = url.
Proof. unfold new_request. strings. reflexivity. Qed.

Lemma jsonify_append (old : list value) (r : value) :
  jsonify r = r -> r <> Undefined ->
  exists stored,
    jsonify (Arr (old ++ [r])) = Arr (stored ++ [r])
    /\ List.length stored = List.length old
    /\ (jsonify (Arr old) = Arr old -> stored = old).
Proof.
  intros Hr Hu. simpl. rewrite map_app. simpl.
  eexists. split; [|split].
  - destruct r; try congruence; rewrite <- Hr at 2; reflexivity.
  - apply length_map.
  - intros H. now injection H.
Qed.

(** The PDF stage: it never throws; it leaves the ledger and the table
    alone; the object gets [pdfUrl] exactly when rendering and
    publishing both succeed. *)
Lemma attach_pdf_result (env : Env) (r : value) (d : file) b t l :
  exists b' l',
    attach_pdf cfg env 0%nat
      {| disk := d; bucket := b; table := t; heap := [r]; log := l |}
    = ({| disk := d; bucket := b'; table := t;
          heap := [if published cfg env r
                   then set r "pdfUrl"
                          (Str (public_url cfg (pdf_fileName env r)))
                   else r];
          log := l' |}, inr tt).
Proof.
  unfold attach_pdf, published. run.
  destruct (pdfkit env (pdf_calls r)) as [buf|]; run; [|eauto].
  destruct (supabase cfg); run; [|eauto].
  destruct (N.of_nat (List.length buf) =? 0); run; [eauto|].
  destruct (_ <? _); run; [eauto|].
  destruct (upload_fails env); run; eauto.
Qed.

(** The mirror stage: it never throws; it leaves the ledger and the
    object alone; the row it inserts is the one of the object as it is
    now. *)
Lemma mirror_result (env : Env) (r : value) (d : file) b t l :
  exists l',
    mirror cfg env 0%nat
      {| disk := d; bucket := b; table := t; heap := [r]; log := l |}
    = ({| disk := d; bucket := b;
          table := if supabase cfg && negb (insert_fails env)
                   then t ++ [database_row r] else t;
          heap := [r]; log := l' |}, inr tt).
Proof.
  unfold mirror. run. destruct (supabase cfg); run; [|eauto].
  destruct (insert_fails env); run; eauto.
Qed.

(** A valid submission whose record was written: the whole run. *)
Lemma submit_request_saved (env : Env) (body : Body) (st : State)
    (old : list value) :
  validation_errors body = [] ->
  ledger st = inr (Arr old) ->
  write_fails env = false ->
  let r0 := new_request env (sanitized body) in
  let r1 := if published cfg env r0
            then set r0 "pdfUrl" (Str (public_url cfg (pdf_fileName env r0)))
            else r0 in
  exists b' l',
    submit_request cfg env body st
    = ({| disk := File (Json (jsonify (Arr (old ++ [r0]))));
          bucket := b';
          table := if supabase cfg && negb (insert_fails env)
                   then table st ++ [database_row r1] else table st;
          heap := [r1]; log := l' |}, inr submitted).
Proof.
  intros Hv Hl Hw r0 r1.
  rewrite (submit_request_valid env body st Hv).
  cbv [try_catch bind].
  rewrite save_request_result, Hl, Hw. cbv beta iota. fold r0.
  destruct (attach_pdf_result env r0
              (File (Json (jsonify (Arr (old ++ [r0])))))
              (bucket st) (table st) (WriteLedger :: ReadLedger :: log st))
    as (b' & l' & ->).
  fold r1.
  destruct (mirror_result env r1 (File (Json (jsonify (Arr (old ++ [r0])))))
              b' (table st) l') as (l'' & ->).
  cbv [ret]. now exists b', l''.
Qed.

(** C2.  For a submission that passes validation and whose record is
    written to the ledger, the answer is the success response whatever
    PDFKit, the storage and the database do: a rendering error, a failed
    upload and a failed insert leave the response as it is. *)
Theorem stage_failures_not_surfaced (env : Env) (body : Body) (st : State)
    (old : list value) :
  validation_errors body = [] ->
  ledger st = inr (Arr old) ->
  write_fails env = false ->
  snd (submit_request cfg env body st) = inr submitted.
Proof.
  intros Hv Hl Hw.
  destruct (submit_request_saved env body st old Hv Hl Hw) as (b' & l' & ->).
  reflexivity.
Qed.

(** C3.  For a submission that passes validation, when [fs.writeFile]
    rejects, the answer is the generic failure, and no rendering, upload
    or insert is executed: the log gains no event of these stages, and
    the file, the bucket and the table are as before. *)
Theorem ledger_write_failure_is_fatal (env : Env) (body : Body) (st : State) :
  validation_errors body = [] ->
  write_fails env = true ->
  snd (submit_request cfg env body st) = inr generic_failure
  /\ (exists events,
        log (fst (submit_request cfg env body st)) = events ++ log st
        /\ existsb downstream events = false)
  /\ disk (fst (submit_request cfg env body st)) = disk st
  /\ bucket (fst (submit_request cfg env body st)) = bucket st
  /\ table (fst (submit_request cfg env body st)) = table st.
Proof.
  intros Hv Hw.
  rewrite (submit_request_valid env body st Hv).
  cbv [try_catch bind].
  rewrite save_request_result.
  destruct (ledger st) as [e|[| | | | |old|]]; rewrite ?Hw;
    (split; [reflexivity|]); (split; [|repeat split; reflexivity]).
  all: first [ now exists [ConsoleError IOError; WriteLedger; ReadLedger]
             | now exists [ConsoleError TypeError; ReadLedger] ].
Qed.

(** C6.  A record appended by a submission is read back as it was
    stored, after the records that were there, in their order: when the
    ledger read [old] before (plain JSON data), it reads [old] followed
    by the new record afterwards, and the record read is the object that
    was built, property by property. *)
Theorem ledger_roundtrip (env : Env) (body : Body) (st : State)
    (old : list value) :
  validation_errors body = [] ->
  ledger st = inr (Arr old) ->
  jsonify (Arr old) = Arr old ->
  write_fails env = false ->
  ledger (fst (submit_request cfg env body st))
  = inr (Arr (old ++ [new_request env (sanitized body)])).
Proof.
  intros Hv Hl Hj Hw.
  destruct (submit_request_saved env body st old Hv Hl Hw) as (b' & l' & ->).
  destruct (jsonify_append old (new_request env (sanitized body)))
    as (stored & E & _ & Hs).
  - apply new_request_json.
  - discriminate.
  - unfold ledger. cbn [fst]. run. rewrite E, (Hs Hj). reflexivity.
Qed.

(** C10.  When the ledger file is missing, unreadable or not JSON,
    [readRequests] returns the empty array and no error; a valid
    submission handled then, whose write succeeds, is answered with
    success and leaves a file that holds the new record alone. *)
Theorem unreadable_ledger_reads_empty (env : Env) (body : Body) (st : State) :
  disk st = NoFile \/ disk st = Unreadable \/ disk st = File Malformed ->
  ledger st = inr (Arr [])
  /\ (validation_errors body = [] ->
      write_fails env = false ->
      snd (submit_request cfg env body st) = inr submitted
      /\ disk (fst (submit_request cfg env body st))
         = File (Json (Arr [new_request env (sanitized body)]))).
Proof.
  intros Hd.
  assert (Hl : ledger st = inr (Arr [])).
  { unfold ledger. run. now destruct Hd as [-> | [-> | ->]]. }
  split; [exact Hl|]. intros Hv Hw.
  destruct (submit_request_saved env body st [] Hv Hl Hw) as (b' & l' & ->).
  split; [reflexivity|]. cbn [fst disk].
  destruct (jsonify_append [] (new_request env (sanitized body)))
    as (stored & E & _ & Hs).
  - apply new_request_json.
  - discriminate.
  - rewrite E, (Hs eq_refl). reflexivity.
Qed.

(** C1, amended.  For a valid submission whose record is written: the
    record is built once; it is written to the ledger before any
    [pdfUrl] is attached, so the record of the ledger has no [pdfUrl];
    the object in memory then gets [pdfUrl], once, exactly when
    rendering and publishing both succeed; and the row given to the
    mirror is the one of the object as it then is, with that [pdfUrl]
    or [null]. *)
Theorem pdfUrl_attached_after_ledger (env : Env) (body : Body) (st : State)
    (old : list value) :
  validation_errors body = [] ->
  ledger st = inr (Arr old) ->
  write_fails env = false ->
  let r0 := new_request env (sanitized body) in
  let url := Str (public_url cfg (pdf_fileName env r0)) in
  let st' := fst (submit_request cfg env body st) in
  (exists stored,
      ledger st' = inr (Arr (stored ++ [r0]))
      /\ List.length stored = List.length old
      /\ has r0 "pdfUrl" = false)
  /\ heap st' = [if published cfg env r0 then set r0 "pdfUrl" url else r0]
  /\ get (nth 0 (heap st') Undefined) "pdfUrl"
     = (if published cfg env r0 then url else Undefined)
  /\ table st'
     = (if supabase cfg && negb (insert_fails env)
        then table st ++ [database_row (nth 0 (heap st') Undefined)]
        else table st)
  /\ get (database_row (nth 0 (heap st') Undefined)) "pdf_url"
     = (if published cfg env r0 then url else Null).
Proof.
  intros Hv Hl Hw r0 url st'. subst st'.
  destruct (submit_request_saved env body st old Hv Hl Hw) as (b' & l' & ->).
  fold r0. cbn [fst heap table nth].
  destruct (jsonify_append old r0) as (stored & E & Hlen & _).
  { apply new_request_json. }
  { discriminate. }
  split; [|split; [|split; [|split]]].
  - exists stored. unfold ledger. run. rewrite E.
    split; [reflexivity|split; [exact Hlen | apply new_request_no_pdfUrl]].
  - reflexivity.
  - destruct (published cfg env r0).
    + apply new_request_set_pdfUrl.
    + apply new_request_no_pdfUrl.
  - reflexivity.
  - change (get (database_row ?r) "pdf_url")
      with (or_else (get r "pdfUrl") Null).
    destruct (published cfg env r0).
    + unfold r0. rewrite new_request_set_pdfUrl. unfold url.
      unfold or_else, truthy, public_url.
      destruct (to_string (supabaseUrl cfg) ++ _) eqn:Hu; [|reflexivity].
      apply app_eq_nil in Hu. destruct Hu as [_ Hu]. discriminate Hu.
    + destruct (new_request_no_pdfUrl env (sanitized body)) as [_ Hn].
      fold r0 in Hn. now rewrite Hn.
Qed.

(** A valid submission is answered with success or with the generic
    failure. *)
Lemma valid_response (env : Env) (body : Body) (st : State) :
  validation_errors body = [] ->
  snd (submit_request cfg env body st) = inr submitted
  \/ snd (submit_request cfg env body st) = inr generic_failure.
Proof.
  intros Hv.
  destruct (ledger st) as [e|v] eqn:Hl.
  - right. rewrite (submit_request_valid env body st Hv).
    cbv [try_catch bind]. now rewrite save_request_result, Hl.
  - destruct (write_fails env) eqn:Hw.
    + right. rewrite (submit_request_valid env body st Hv).
      cbv [try_catch bind]. rewrite save_request_result, Hl, Hw.
      now destruct v.
    + destruct v as [| | | | |old|];
        try (right; rewrite (submit_request_valid env body st Hv);
             cbv [try_catch bind]; now rewrite save_request_result, Hl).
      left.
      destruct (submit_request_saved env body st old Hv Hl Hw)
        as (b' & l' & ->).
      reflexivity.
Qed.

(** C7.  With the other fields valid, a description whose trimmed text
    counts 9 characters for [isLength] is rejected: the answer is the
    validation failure with the message of the description, and nothing
    else happens.  Counts 10 and 5000 are accepted: validation reports
    nothing and the answer is not a validation failure.  Count 5001 is
    rejected as 9 is. *)
Theorem designDescription_bounds (env : Env) (body : Body) (st : State)
    (d : jsstring) :
  body designDescription = Some d ->
  valid_elsewhere designDescription body ->
  let rejected :=
    submit_request cfg env body st
    = (entered st, inr (validation_failed [description_message])) in
  let accepted :=
    validation_errors body = []
    /\ forall response,
         snd (submit_request cfg env body st) = inr response ->
         status response <> 400 in
  (charCount (trim d) = 9 -> rejected)
  /\ (charCount (trim d) = 10 -> accepted)
  /\ (charCount (trim d) = 5000 -> accepted)
  /\ (charCount (trim d) = 5001 -> rejected).
Proof.
  intros Hd Ho rejected accepted.
  pose proof (description_decides body d Hd Ho) as He.
  unfold isLength in He.
  assert (Hrej : validation_errors body = [description_message] -> rejected).
  { intros E. unfold rejected. rewrite <- E.
    apply submit_request_invalid. rewrite E. discriminate. }
  assert (Hacc : validation_errors body = [] -> accepted).
  { intros E. split; [exact E|]. intros response Hr.
    destruct (valid_response env body st E) as [H|H];
      rewrite H in Hr; injection Hr as <-; discriminate. }
  split; [|split; [|split]]; intros Hc; rewrite Hc in He;
    first [apply Hrej | apply Hacc]; exact He.
Qed.

Lemma jsonify_snoc (old : list value) (r : value) :
  jsonify (Arr old) = Arr old -> jsonify r = r -> r <> Undefined ->
  jsonify (Arr (old ++ [r])) = Arr (old ++ [r]).
Proof.
  intros Ho Hr Hu.
  destruct (jsonify_append old r Hr Hu) as (stored & E & _ & Hs).
  now rewrite E, (Hs Ho).
Qed.

(** Valid submissions whose writes succeed, handled one after the
    other: the ledger lists their records after the former ones, in the
    order of arrival. *)
Lemma ledger_in_arrival_order (submissions : list (Env * Body)) :
  Forall (fun s => validation_errors (snd s) = []
                   /\ write_fails (fst s) = false) submissions ->
  forall (st : State) (old : list value),
    ledger st = inr (Arr old) ->
    jsonify (Arr old) = Arr old ->
    ledger (serve cfg submissions st)
    = inr (Arr (old ++ map record_of submissions)).
Proof.
  induction 1 as [|[env body] rest [Hv Hw] _ IH]; intros st old Hl Hj.
  - simpl. now rewrite app_nil_r.
  - simpl serve. simpl map.
    destruct (submit_request_saved env body st old Hv Hl Hw)
      as (b' & l' & E).
    rewrite (IH _ (old ++ [record_of (env, body)])).
    + now rewrite <- app_assoc.
    + rewrite E. unfold ledger. run.
      unfold record_of. cbn [fst snd].
      rewrite jsonify_snoc; auto using new_request_json. discriminate.
    + apply jsonify_snoc; auto.
      * apply new_request_json.
      * discriminate.
Qed.

End Handler.

(** ** Identifiers *)

Lemma lit_injective (s t : string) : lit s = lit t -> s = t.
Proof.
  unfold lit. intros H.
  rewrite <- (string_of_list_ascii_of_string s),
    <- (string_of_list_ascii_of_string t).
  f_equal. revert H.
  generalize (list_ascii_of_string s) (list_ascii_of_string t).
  induction l as [|a l IH]; intros [|b l'] H; try discriminate; auto.
  simpl in H. injection H as Hab Hl. f_equal; [|now apply IH].
  rewrite <- (ascii_N_embedding a), <- (ascii_N_embedding b). now f_equal.
Qed.

Lemma to_int_proper (n : Z) :
  Z.to_int n <> Decimal.Pos Decimal.Nil /\ Z.to_int n <> Decimal.Neg Decimal.Nil.
Proof.
  destruct n as [|p|p]; simpl; split; try discriminate;
    intros H; injection H; apply Unsigned.to_uint_nonnil.
Qed.

(** Distinct clock readings give distinct identifiers. *)
Lemma Number_toString_injective (a b : Z) :
  Number_toString a = Number_toString b -> a = b.
Proof.
  unfold Number_toString. intros H. apply lit_injective in H.
  apply DecimalZ.to_int_inj.
  destruct (to_int_proper a) as [Ha Ha'], (to_int_proper b) as [Hb Hb'].
  apply (f_equal NilZero.int_of_string) in H.
  rewrite !NilZero.isi in H by assumption. now injection H.
Qed.

Lemma new_request_id {libs : Libs} (env : Env) (b : Body) :
  get (new_request env b) "id" = Str (Number_toString (now_id env)).
Proof. reflexivity. Qed.

(** C5.  Two submissions handled within the same millisecond: the
    ledger holds a record of each, and the two records have the same
    [id]. *)
Theorem id_collision :
  exists r1 r2,
    ledger (serve (libs := example_libs) example_config
              [(example_env example_now, ada); (example_env example_now, bob)]
              installed)
    = inr (Arr [r1; r2])
    /\ get r1 "clientName" = Str (lit "Ada")
    /\ get r2 "clientName" = Str (lit "Bob")
    /\ get r1 "id" = get r2 "id".
Proof.
  eexists _, _. split; [vm_compute; reflexivity|].
  repeat split; vm_compute; reflexivity.
Qed.

(** The claim of C1 fails on a submission for which every stage
    succeeds: the object in memory and the row of the mirror carry
    [pdfUrl], the record of the ledger does not. *)
Lemma ledger_record_lacks_pdfUrl :
  let env := example_env example_now in
  let run := submit_request (libs := example_libs) example_config env ada
               installed in
  let r0 := new_request (libs := example_libs) env
              (sanitized (libs := example_libs) ada) in
  snd run = inr submitted
  /\ published (libs := example_libs) example_config env r0 = true
  /\ has (nth 0 (heap (fst run)) Undefined) "pdfUrl" = true
  /\ truthy (get (nth 0 (table (fst run)) Undefined) "pdf_url") = true
  /\ ledger (fst run) = inr (Arr [r0])
  /\ has r0 "pdfUrl" = false.
Proof. repeat split; vm_compute; reflexivity. Qed.

(** The claim of C8 fails on a record whose colour preferences are a
    control character: they are not empty, the style preferences are,
    and the document has no Design Preferences section. *)
Lemma control_character_colors_no_section :
  let body := ada_prefers [1] in
  let r := new_request (libs := example_libs) (example_env example_now)
             (sanitized (libs := example_libs) body) in
  validation_errors (libs := example_libs) body = []
  /\ get r "colorPreferences" = Str [1]
  /\ get r "stylePreferences" = Str []
  /\ design_preferences r = []
  /\ ~ In heading (pdf_calls (libs := example_libs) r).
Proof.
  cbv zeta. repeat split; try (vm_compute; reflexivity).
  intros H. apply heading_only_in_section in H. vm_compute in H. exact H.
Qed.

(** ** The theorems at the example inputs *)

Lemma pdfUrl_attached_after_ledger_witness :
  let env := example_env example_now in
  let r0 := new_request (libs := example_libs) env
              (sanitized (libs := example_libs) ada) in
  let st' := fst (submit_request (libs := example_libs) example_config env
                    ada installed) in
  ledger st' = inr (Arr [r0])
  /\ has r0 "pdfUrl" = false
  /\ has (nth 0 (heap st') Undefined) "pdfUrl" = true.
Proof.
  cbv zeta.
  assert (Hv : validation_errors (libs := example_libs) ada = [])
    by (vm_compute; reflexivity).
  assert (Hl : ledger installed = inr (Arr [])) by reflexivity.
  assert (Hw : write_fails (example_env example_now) = false) by reflexivity.
  destruct (pdfUrl_attached_after_ledger (libs := example_libs)
              example_config (example_env example_now) ada installed []
              Hv Hl Hw)
    as ((stored & Hs & Hlen & Hno) & Hheap & _).
  destruct stored; [|discriminate Hlen].
  split; [exact Hs|]. split; [exact Hno|].
  rewrite Hheap. vm_compute. reflexivity.
Defined.

Lemma stage_failures_not_surfaced_witness :
  upload_fails (example_env_stages_fail example_now) = true
  /\ insert_fails (example_env_stages_fail example_now) = true
  /\ snd (submit_request (libs := example_libs) example_config
            (example_env_stages_fail example_now) ada installed)
     = inr submitted.
Proof.
  split; [reflexivity|]. split; [reflexivity|].
  apply (stage_failures_not_surfaced (libs := example_libs) example_config
           (example_env_stages_fail example_now) ada installed []).
  - vm_compute. reflexivity.
  - reflexivity.
  - reflexivity.
Defined.

Lemma ledger_write_failure_is_fatal_witness :
  let run := submit_request (libs := example_libs) example_config
               (example_env_write_fails example_now) ada installed in
  snd run = inr generic_failure
  /\ disk (fst run) = File (Json (Arr []))
  /\ bucket (fst run) = [] /\ table (fst run) = [].
Proof.
  cbv zeta.
  destruct (ledger_write_failure_is_fatal (libs := example_libs)
              example_config (example_env_write_fails example_now) ada
              installed)
    as (Hr & _ & Hd & Hb & Ht).
  - vm_compute. reflexivity.
  - reflexivity.
  - repeat split; assumption.
Defined.

Lemma ledger_roundtrip_witness :
  let env := example_env example_now in
  let first := fst (submit_request (libs := example_libs) example_config env
                      ada installed) in
  let r1 := new_request (libs := example_libs) env
              (sanitized (libs := example_libs) ada) in
  let r2 := new_request (libs := example_libs) env
              (sanitized (libs := example_libs) bob) in
  ledger first = inr (Arr [r1])
  /\ ledger (fst (submit_request (libs := example_libs) example_config env
                    bob first))
     = inr (Arr [r1; r2]).
Proof.
  cbv zeta.
  assert (H1 : ledger (fst (submit_request (libs := example_libs)
                              example_config (example_env example_now) ada
                              installed))
               = inr (Arr ([] ++ [new_request (libs := example_libs)
                                    (example_env example_now)
                                    (sanitized (libs := example_libs) ada)]))).
  { apply (ledger_roundtrip (libs := example_libs) example_config
             (example_env example_now) ada installed []);
      [vm_compute; reflexivity | reflexivity | reflexivity | reflexivity]. }
  split; [exact H1|].
  apply (ledger_roundtrip (libs := example_libs) example_config
           (example_env example_now) bob _
           [new_request (libs := example_libs) (example_env example_now)
              (sanitized (libs := example_libs) ada)]).
  - vm_compute. reflexivity.
  - exact H1.
  - vm_compute. reflexivity.
  - reflexivity.
Defined.

Lemma designDescription_bounds_witness :
  let st := installed in
  let env := example_env example_now in
  charCount (Libs := example_libs) (trim (lit "  too short ")) = 9
  /\ submit_request (libs := example_libs) example_config env
       (ada_describes "  too short ") st
     = (entered st, inr (validation_failed [description_message]))
  /\ charCount (Libs := example_libs) (trim (lit "ten chars!")) = 10
  /\ validation_errors (libs := example_libs) (ada_describes "ten chars!") = [].
Proof.
  cbv zeta.
  destruct (designDescription_bounds (libs := example_libs) example_config
              (example_env example_now) (ada_describes "  too short ")
              installed (lit "  too short "))
    as (H9 & _).
  { reflexivity. }
  { vm_compute. reflexivity. }
  destruct (designDescription_bounds (libs := example_libs) example_config
              (example_env example_now) (ada_describes "ten chars!")
              installed (lit "ten chars!"))
    as (_ & H10 & _).
  { reflexivity. }
  { vm_compute. reflexivity. }
  split; [vm_compute; reflexivity|]. split; [apply H9; vm_compute; reflexivity|].
  split; [vm_compute; reflexivity|]. apply H10. vm_compute. reflexivity.
Defined.

Lemma design_preferences_section_witness :
  let r := new_request (libs := example_libs) (example_env example_now)
             (sanitized (libs := example_libs) (ada_prefers (lit "teal"))) in
  design_preferences r
  = [ fontSize 16; font "Helvetica-Bold"; heading; moveDown 3;
      fontSize 12; font "Helvetica";
      text (lit "Color Preferences: teal") indented; moveDown 5 ]
  /\ design_preferences
       (new_request (libs := example_libs) (example_env example_now)
          (sanitized (libs := example_libs) ada)) = [].
Proof.
  cbv zeta.
  destruct (design_preferences_section (libs := example_libs)
              (new_request (libs := example_libs) (example_env example_now)
                 (sanitized (libs := example_libs) (ada_prefers (lit "teal")))))
    as (_ & Hb).
  destruct Hb as (Hb & _).
  { vm_compute. discriminate. }
  { vm_compute. reflexivity. }
  destruct (design_preferences_section (libs := example_libs)
              (new_request (libs := example_libs) (example_env example_now)
                 (sanitized (libs := example_libs) ada)))
    as (Ha & _).
  destruct Ha as (Ha & _).
  { vm_compute. reflexivity. }
  { vm_compute. reflexivity. }
  split; [|exact Ha].
  rewrite Hb. vm_compute. reflexivity.
Defined.

Lemma unreadable_ledger_reads_empty_witness :
  let st := {| disk := File Malformed; bucket := []; table := []; heap := [];
               log := [] |} in
  let run := submit_request (libs := example_libs) example_config
               (example_env example_now) ada st in
  ledger st = inr (Arr [])
  /\ snd run = inr submitted
  /\ disk (fst run)
     = File (Json (Arr [new_request (libs := example_libs)
                          (example_env example_now)
                          (sanitized (libs := example_libs) ada)])).
Proof.
  cbv zeta.
  destruct (unreadable_ledger_reads_empty (libs := example_libs)
              example_config (example_env example_now) ada
              {| disk := File Malformed; bucket := []; table := [];
                 heap := []; log := [] |})
    as (Hl & Hs).
  { right. right. reflexivity. }
  destruct Hs as (Hr & Hd).
  { vm_compute. reflexivity. }
  { reflexivity. }
  repeat split; assumption.
Defined.
(** ** Objects and strings *)

Lemma str_eqb_eq (a b : jsstring) : str_eqb a b = true <-> a = b.
Proof.
  revert b. induction a as [|x a IH]; intros [|y b]; simpl;
    try (split; [discriminate | discriminate]); [tauto|].
  unfold char_eqb. rewrite andb_true_iff, N.eqb_eq, IH.
  split; [intros [-> ->]; reflexivity | intros H; injection H; auto].
Qed.

Lemma str_eqb_refl (a : jsstring) : str_eqb a a = true.
Proof. now apply str_eqb_eq. Qed.

Lemma str_eqb_neq (a b : jsstring) : a <> b -> str_eqb a b = false.
Proof.
  intros H. destruct (str_eqb a b) eqn:E; [|reflexivity].
  apply str_eqb_eq in E. contradiction.
Qed.

(** ** Regular expressions of origins *)

Lemma match_word (w : jsstring) (re : list token) (s : jsstring) :
  match_here (word w ++ re) s = true
  <-> exists rest, s = w ++ rest /\ match_here re rest = true.
Proof.
  revert s. induction w as [|x w IH]; intros s; simpl.
  - split; [eauto | intros (rest & -> & H); exact H].
  - destruct s as [|c s].
    + split; [discriminate | intros (rest & H & _); discriminate].
    + rewrite andb_true_iff, IH. unfold char_eqb. rewrite N.eqb_eq. split.
      * intros (-> & rest & -> & H). eauto.
      * intros (rest & H & Hm). injection H as -> ->. eauto.
Qed.

Lemma match_any (re : list token) (s : jsstring) :
  match_here ((AnyChar, false) :: re) s = true
  <-> exists c rest, s = c :: rest /\ is_line_terminator c = false
                     /\ match_here re rest = true.
Proof.
  simpl. destruct s as [|c s].
  - split; [discriminate | intros (c & rest & H & _); discriminate].
  - rewrite andb_true_iff, negb_true_iff. split.
    + intros [H1 H2]. eauto.
    + intros (c' & rest & H & H1 & H2). injection H as -> ->. auto.
Qed.

Lemma match_star_unfold (a : atom) (re : list token) (s : jsstring) :
  match_here ((a, true) :: re) s
  = match_here re s
    || match s with
       | c :: s' => atom_accepts a c && match_here ((a, true) :: re) s'
       | [] => false
       end.
Proof. destruct s; reflexivity. Qed.

Lemma match_any_star (re : list token) (s : jsstring) :
  match_here ((AnyChar, true) :: re) s = true
  <-> exists mid rest, s = mid ++ rest /\ no_line_terminator mid
                       /\ match_here re rest = true.
Proof.
  induction s as [|c s IH]; rewrite match_star_unfold, orb_true_iff.
  - split.
    + intros [H|H]; [|discriminate]. exists [], []. repeat split; auto.
      constructor.
    + intros (mid & rest & H & _ & Hm). symmetry in H.
      apply app_eq_nil in H. destruct H as [_ ->]. auto.
  - rewrite andb_true_iff, IH. simpl atom_accepts. rewrite negb_true_iff.
    split.
    + intros [H | (Hc & mid & rest & -> & Hmid & Hm)].
      * exists [], (c :: s). repeat split; auto. constructor.
      * exists (c :: mid), rest. repeat split; auto. now constructor.
    + intros ([|x mid] & rest & H & Hmid & Hm); simpl in H.
      * subst rest. auto.
      * injection H as -> ->. inversion Hmid; subst. right.
        split; [assumption|]. exists mid, rest. auto.
Qed.

Lemma test_somewhere (re : list token) (s : jsstring) :
  test re s = true
  <-> exists before rest, s = before ++ rest /\ match_here re rest = true.
Proof.
  induction s as [|c s IH]; simpl; rewrite orb_true_iff.
  - split.
    + intros [H|H]; [|discriminate]. now exists [], [].
    + intros (before & rest & H & Hm). symmetry in H.
      apply app_eq_nil in H. destruct H as [_ ->]. auto.
  - rewrite IH. split.
    + intros [H | (before & rest & -> & Hm)].
      * now exists [], (c :: s).
      * now exists (c :: before), rest.
    + intros ([|x before] & rest & H & Hm); simpl in H.
      * subst rest. auto.
      * injection H as -> ->. right. eauto.
Qed.

(** The verdict on an origin of an installation without
    [ALLOWED_ORIGINS]. *)
Lemma isAllowed_default (origin : jsstring) :
  exists ok,
    isAllowed (allowedOrigins None) origin = Some ok
    /\ (ok = true
        <-> origin = lit "http://localhost:3000"
            \/ origin = lit "https://cerneydesigns.com"
            \/ vercel_like origin).
Proof.
  unfold allowedOrigins, default_origins, isAllowed.
  assert (E1 : origin_matches (lit "http://localhost:3000") origin
               = Some (str_eqb (lit "http://localhost:3000") origin))
    by reflexivity.
  assert (E2 : origin_matches (lit "https://cerneydesigns.com") origin
               = Some (str_eqb (lit "https://cerneydesigns.com") origin))
    by reflexivity.
  assert (E3 : origin_matches (lit "https://*.vercel.app") origin
               = Some (test (word (lit "https://")
                             ++ (AnyChar, true) :: (AnyChar, false)
                                :: word (lit "vercel")
                                ++ (AnyChar, false) :: word (lit "app") ++ [])
                         origin))
    by reflexivity.
  rewrite E1, E2, E3. clear E1 E2 E3.
  assert (V : test (word (lit "https://")
                    ++ (AnyChar, true) :: (AnyChar, false)
                       :: word (lit "vercel")
                       ++ (AnyChar, false) :: word (lit "app") ++ [])
                origin = true <-> vercel_like origin).
  { rewrite test_somewhere. unfold vercel_like. split.
    - intros (before & rest & -> & H).
      apply match_word in H. destruct H as (r1 & -> & H).
      apply match_any_star in H. destruct H as (mid & r2 & -> & Hmid & H).
      apply match_any in H. destruct H as (c1 & r3 & -> & Hc1 & H).
      apply match_word in H. destruct H as (r4 & -> & H).
      apply match_any in H. destruct H as (c2 & r5 & -> & Hc2 & H).
      apply match_word in H. destruct H as (after & -> & _).
      exists before, mid, c1, c2, after. repeat split; auto.
    - intros (before & mid & c1 & c2 & after & -> & Hmid & Hc1 & Hc2).
      exists before. eexists. split; [reflexivity|].
      apply match_word. eexists. split; [reflexivity|].
      apply match_any_star. exists mid. eexists.
      split; [reflexivity|]. split; [exact Hmid|].
      apply match_any. exists c1. eexists.
      split; [reflexivity|]. split; [exact Hc1|].
      apply match_word. eexists. split; [reflexivity|].
      apply match_any. exists c2. eexists.
      split; [reflexivity|]. split; [exact Hc2|].
      apply match_word. exists after. split; reflexivity. }
  destruct (str_eqb (lit "http://localhost:3000") origin) eqn:H1.
  { exists true. apply str_eqb_eq in H1. split; [reflexivity|].
    split; auto. }
  destruct (str_eqb (lit "https://cerneydesigns.com") origin) eqn:H2.
  { exists true. apply str_eqb_eq in H2. split; [reflexivity|].
    split; auto. }
  destruct (test _ origin) eqn:H3.
  { exists true. split; [reflexivity|]. split; [|reflexivity].
    intros _. right. right. now apply V. }
  exists false. split; [reflexivity|]. split; [discriminate|].
  intros [H|[H|H]].
  - symmetry in H. apply str_eqb_eq in H. congruence.
  - symmetry in H. apply str_eqb_eq in H. congruence.
  - apply V in H. congruence.
Qed.

(** X1.  Without [ALLOWED_ORIGINS], a request with a non-empty
    [Origin] is let through exactly when the origin is
    [http://localhost:3000], is [https://cerneydesigns.com], or contains
    a match of the expression made from [https://*.vercel.app]; any
    other origin is refused with the error that the error middleware
    answers with status 403. *)
Theorem cors_default_policy (origin : jsstring) :
  origin <> [] ->
  (cors_origin None (Some origin) = Some (inr tt)
   <-> origin = lit "http://localhost:3000"
       \/ origin = lit "https://cerneydesigns.com"
       \/ vercel_like origin)
  /\ (cors_origin None (Some origin) = Some (inr tt)
      \/ cors_origin None (Some origin) = Some (inl cors_error)
         /\ status (error_handler cors_error) = 403).
Proof.
  intros Ho. destruct origin as [|c o]; [contradiction|].
  cbn [cors_origin].
  destruct (isAllowed_default (c :: o)) as (ok & -> & Hok).
  cbn [option_map]. destruct ok; split.
  - split; [intros _; now apply Hok | reflexivity].
  - now left.
  - split; [discriminate|]. intros H. apply Hok in H. discriminate.
  - right. split; reflexivity.
Qed.

(** X2.  The expression made from [https://*.vercel.app] is
    searched anywhere in the origin, and its dots stand for any
    character: with the default origins, an origin that contains
    [https://], a host without line terminator and [xvercel.app], or
    [.vercel-app], is let through whatever comes before and after. *)
Theorem wildcard_origin_is_unanchored (before host after : jsstring) :
  no_line_terminator host ->
  cors_origin None
    (Some (before ++ lit "https://" ++ host ++ lit "xvercel.app" ++ after))
  = Some (inr tt)
  /\ cors_origin None
       (Some (before ++ lit "https://" ++ host ++ lit ".vercel-app" ++ after))
     = Some (inr tt).
Proof.
  intros Hhost.
  assert (H : forall c1 c2,
             is_line_terminator c1 = false -> is_line_terminator c2 = false ->
             cors_origin None
               (Some (before ++ lit "https://" ++ host ++ c1 :: lit "vercel"
                      ++ c2 :: lit "app" ++ after))
             = Some (inr tt)).
  { intros c1 c2 H1 H2.
    destruct (isAllowed_default
                (before ++ lit "https://" ++ host ++ c1 :: lit "vercel"
                 ++ c2 :: lit "app" ++ after)) as (ok & E & Hok).
    assert (ok = true) as ->.
    { apply Hok. right. right. exists before, host, c1, c2, after.
      repeat split; auto. }
    unfold cors_origin. rewrite E.
    destruct before; reflexivity. }
  split.
  - apply (H 120 46); reflexivity.
  - apply (H 46 45); reflexivity.
Qed.

Lemma isAllowed_exact (allowed : list jsstring) (origin : jsstring) :
  Forall (fun a => includes a [STAR] = false) allowed ->
  isAllowed allowed origin = Some (existsb (fun a => str_eqb a origin) allowed).
Proof.
  induction 1 as [|a allowed Ha _ IH]; [reflexivity|].
  simpl. unfold origin_matches. rewrite Ha.
  destruct (str_eqb a origin); [reflexivity | exact IH].
Qed.

(** X3.  When no allowed origin contains a star, a non-empty
    origin is let through exactly when it is one of the allowed
    origins, the pieces of [ALLOWED_ORIGINS] between commas compared as
    they are written; any other origin is refused. *)
Theorem configured_origins_are_exact (ALLOWED_ORIGINS : option jsstring)
    (origin : jsstring) :
  origin <> [] ->
  Forall (fun a => includes a [STAR] = false)
    (allowedOrigins ALLOWED_ORIGINS) ->
  (cors_origin ALLOWED_ORIGINS (Some origin) = Some (inr tt)
   <-> In origin (allowedOrigins ALLOWED_ORIGINS))
  /\ (~ In origin (allowedOrigins ALLOWED_ORIGINS) ->
      cors_origin ALLOWED_ORIGINS (Some origin) = Some (inl cors_error)).
Proof.
  intros Ho Hall. destruct origin as [|c o]; [contradiction|].
  cbn [cors_origin]. rewrite (isAllowed_exact _ _ Hall). cbn [option_map].
  destruct (existsb _ _) eqn:E.
  - apply existsb_exists in E. destruct E as (a & Hin & Ha).
    apply str_eqb_eq in Ha. subst a.
    split; [split; auto | contradiction].
  - split; [split; [discriminate|] | reflexivity].
    intros Hin.
    assert (existsb (fun a => str_eqb a (c :: o))
              (allowedOrigins ALLOWED_ORIGINS) = true); [|congruence].
    apply existsb_exists. exists (c :: o). split; [exact Hin|].
    apply str_eqb_refl.
Qed.

Lemma lookup_assign_same (k : jsstring) (v : value) ps :
  lookup k (assign k v ps) = v.
Proof.
  induction ps as [|[k' v'] ps IH]; simpl.
  - now rewrite str_eqb_refl.
  - destruct (str_eqb k k') eqn:E; simpl; rewrite ?str_eqb_refl, ?E; auto.
Qed.

Lemma lookup_assign_other (k k' : jsstring) (v : value) ps :
  k' <> k -> lookup k' (assign k v ps) = lookup k' ps.
Proof.
  intros Hk. induction ps as [|[k0 v0] ps IH]; simpl.
  - now rewrite (str_eqb_neq k' k).
  - destruct (str_eqb k k0) eqn:E; simpl.
    + apply str_eqb_eq in E. subst k0. now rewrite (str_eqb_neq k' k).
    + now rewrite IH.
Qed.

(** ** The admin listing *)

Section Listing.

Variable ADMIN_API_KEY : option jsstring.

Ltac run :=
  cbv [get_requests admin_requests Array_map bind ret throw try_catch emit
       console_error fs_readFile JSON_parse readRequests];
  cbn [disk bucket table heap log fst snd].

(** X4.  [authenticateAdmin] lets a request through to the
    listing only when [ADMIN_API_KEY] is set and non-empty and the key
    presented (the [x-api-key] header, else the [apiKey] query
    parameter) is that very string.  With no key configured the answer
    is 503, with another key or none presented it is 401, and in both
    cases the state is left as it was: nothing is read. *)
Theorem admin_listing_guard (req : AdminRequest) (st : State) :
  (exists k, ADMIN_API_KEY = Some k /\ k <> []
             /\ presented_key req = Str k
             /\ admin_requests ADMIN_API_KEY req st = get_requests st)
  \/ ((ADMIN_API_KEY = None \/ ADMIN_API_KEY = Some [])
      /\ admin_requests ADMIN_API_KEY req st = (st, inr not_configured))
  \/ (exists k, ADMIN_API_KEY = Some k /\ k <> []
                /\ presented_key req <> Str k
                /\ admin_requests ADMIN_API_KEY req st = (st, inr unauthorized)).
Proof.
  unfold admin_requests, authenticateAdmin.
  destruct ADMIN_API_KEY as [[|c k]|]; [right; left; auto | | right; left; auto].
  destruct (is_string (presented_key req) (c :: k)) eqn:E.
  - left. exists (c :: k).
    split; [reflexivity|]. split; [discriminate|]. split; [|reflexivity].
    unfold is_string in E. destruct (presented_key req); try discriminate.
    apply str_eqb_eq in E. now subst.
  - right. right. exists (c :: k).
    split; [reflexivity|]. split; [discriminate|]. split; [|reflexivity].
    intros H. rewrite H in E. unfold is_string in E.
    rewrite str_eqb_refl in E. discriminate.
Qed.

(** The listing of a ledger. *)
Lemma get_requests_result (st : State) :
  get_requests st
  = match ledger st with
    | inr (Arr entries) =>
        match map_requests entries with
        | inr rs =>
            ({| disk := disk st; bucket := bucket st; table := table st;
                heap := heap st; log := ReadLedger :: log st |},
             inr {| status := 200; json := Arr rs |})
        | inl e =>
            ({| disk := disk st; bucket := bucket st; table := table st;
                heap := heap st;
                log := ConsoleError e :: ReadLedger :: log st |},
             inr fetch_failed)
        end
    | _ =>
        ({| disk := disk st; bucket := bucket st; table := table st;
            heap := heap st;
            log := ConsoleError TypeError :: ReadLedger :: log st |},
         inr fetch_failed)
    end.
Proof.
  unfold ledger. run.
  destruct (disk st) as [| |[|v]]; run; try reflexivity.
  destruct v as [| | | | |entries|]; run; try reflexivity.
  destruct (map_requests entries); reflexivity.
Qed.

Lemma assign_keys (k : jsstring) (v : value) ps :
  lookup k ps <> Undefined -> map fst (assign k v ps) = map fst ps.
Proof.
  induction ps as [|[k' v'] ps IH]; simpl; [congruence|].
  destruct (str_eqb k k') eqn:E; simpl.
  - intros _. apply str_eqb_eq in E. now subst.
  - intros H. now rewrite IH.
Qed.

(** Records with a string for email are all presented, each as its
    masked copy. *)
Lemma map_requests_masks (entries : list value) :
  Forall (fun r => exists props e,
              r = Obj props /\ lookup (lit "email") props = Str e) entries ->
  exists out, map_requests entries = inr out /\ Forall2 masked_copy entries out.
Proof.
  induction 1 as [|r entries (props & e & -> & He) _ IH].
  - exists []. split; [reflexivity | constructor].
  - destruct IH as (out & Eout & Hout). simpl map_requests.
    unfold mask_request. cbv beta iota zeta. unfold get. rewrite He.
    assert (Hk : lookup (lit "email") props <> Undefined)
      by (rewrite He; discriminate).
    destruct e as [|c e]; simpl truthy; cbv iota; rewrite Eout;
      eexists; (split; [reflexivity|]); constructor; auto;
      exists props; eexists; eexists;
      (split; [reflexivity|]); (split; [reflexivity|]);
      (split; [exact He|]);
      (split; [apply lookup_assign_same|]);
      (split; [intros k Hne; now apply lookup_assign_other
              | now apply assign_keys]).
Qed.

(** X5.  When the ledger is an array of objects that each have a
    string for [email], the listing answers 200 with one entry for each
    record, in the order of the ledger: the record with its [email]
    replaced by its first three code units followed by [***] (by the
    empty string when it is empty), its other properties and their
    order unchanged. *)
Theorem listing_masks_emails (st : State) (entries : list value) :
  ledger st = inr (Arr entries) ->
  Forall (fun r => exists props e,
              r = Obj props /\ lookup (lit "email") props = Str e) entries ->
  exists out,
    snd (get_requests st) = inr {| status := 200; json := Arr out |}
    /\ Forall2 masked_copy entries out.
Proof.
  intros Hl Hitems. rewrite get_requests_result, Hl.
  destruct (map_requests_masks entries Hitems) as (out & -> & Hout).
  exists out. split; [reflexivity | exact Hout].
Qed.

(** X6.  The listing changes neither the ledger file, nor the
    bucket, nor the table, nor the heap, and it never throws: it
    answers 200, or the fixed body of status 500. *)
Theorem listing_is_read_only (st : State) :
  let st' := fst (get_requests st) in
  disk st' = disk st /\ bucket st' = bucket st /\ table st' = table st
  /\ heap st' = heap st
  /\ exists response,
       snd (get_requests st) = inr response
       /\ (status response = 200 \/ response = fetch_failed).
Proof.
  cbv zeta. rewrite get_requests_result.
  destruct (ledger st) as [e|[| | | | |entries|]];
    try (repeat split; eexists; split; [reflexivity | now right]).
  destruct (map_requests entries);
    repeat split; eexists; (split; [reflexivity|]); auto.
Qed.

(** X7.  A ledger file that is missing, cannot be read or is not
    JSON is listed as the empty array, with status 200. *)
Theorem listing_of_unreadable_ledger (st : State) :
  disk st = NoFile \/ disk st = Unreadable \/ disk st = File Malformed ->
  snd (get_requests st) = inr {| status := 200; json := Arr [] |}.
Proof.
  intros Hd. rewrite get_requests_result.
  assert (Hl : ledger st = inr (Arr [])).
  { destruct st as [d b t h l]. simpl in Hd.
    destruct Hd as [-> | [-> | ->]]; reflexivity. }
  now rewrite Hl.
Qed.

Lemma map_requests_fails (entries : list value) (r : value) (e : Err) :
  In r entries -> mask_request r = inl e ->
  exists e', map_requests entries = inl e'.
Proof.
  induction entries as [|x entries IH]; [intros [] |].
  intros [->|Hin] He; simpl.
  - rewrite He. eauto.
  - destruct (mask_request x); [eauto|].
    destruct (IH Hin He) as (e' & ->). eauto.
Qed.

(** X8.  One entry that cannot be presented fails the whole
    listing: when the ledger is JSON but not an array, when one of its
    entries is [null], or when one record has a number other than zero
    for [email], the answer is the fixed body of status 500. *)
Theorem listing_fails_as_a_whole (st : State) (v : value) :
  ledger st = inr v ->
  (forall entries, v <> Arr entries)
  \/ (exists entries, v = Arr entries /\ In Null entries)
  \/ (exists entries r n,
        v = Arr entries /\ In r entries
        /\ has_email_number r n) ->
  snd (get_requests st) = inr fetch_failed.
Proof.
  intros Hl H. rewrite get_requests_result, Hl.
  destruct H as [H | [(entries & -> & Hin) | (entries & r & n & -> & Hin & Hr)]].
  - destruct v as [| | | | |entries|]; try reflexivity.
    now destruct (H entries).
  - destruct (map_requests_fails entries Null TypeError Hin eq_refl) as (e & ->).
    reflexivity.
  - destruct Hr as (props & -> & He & Hn).
    destruct (map_requests_fails entries (Obj props) TypeError Hin) as (e & ->);
      [|reflexivity].
    unfold mask_request. cbv beta iota zeta.
    change (lookup (lit "email") props) with (get (Obj props) "email").
    rewrite He. simpl.
    destruct (Z.eqb_spec n 0); [contradiction | reflexivity].
Qed.

End Listing.

(** ** Start-up *)

(** X9.  [ensureDataDir] leaves an existing ledger file as it
    is, whatever it holds; where there is none and it succeeds, the
    ledger is the empty array afterwards; once it has succeeded,
    running it again changes nothing; the bucket and the table are
    never touched. *)
Theorem ensureDataDir_keeps_ledger (boot : Boot) (st : State) :
  let st' := fst (ensureDataDir boot st) in
  (disk st <> NoFile -> disk st' = disk st)
  /\ (disk st = NoFile ->
      snd (ensureDataDir boot st) = inr tt ->
      disk st' = File (Json (Arr [])) /\ ledger st' = inr (Arr []))
  /\ (snd (ensureDataDir boot st) = inr tt ->
      forall boot', dir_exists boot' = true ->
                    ensureDataDir boot' st' = (st', inr tt))
  /\ bucket st' = bucket st /\ table st' = table st.
Proof.
  cbv zeta. unfold ensureDataDir, bind, ret, throw.
  destruct st as [d b t h l]. cbn [disk bucket table heap log].
  destruct (dir_exists boot); [|destruct (mkdir_fails boot)];
    cbn [fst snd disk bucket table heap log];
    (split; [|split; [|split]]); try (split; reflexivity);
    try (intros; discriminate);
    try (destruct d as [| |c]; try destruct (init_write_fails boot);
         cbn [fst snd disk]; intros; try congruence;
         try (split; reflexivity);
         match goal with H : dir_exists _ = true |- _ => rewrite H end;
         reflexivity).
Qed.

(** ** The error middleware *)


(** ** Validation, field by field *)

Section Fields.

Context {libs : Libs}.
Variable cfg : Config.

Lemma isIn_spec (options : list string) (v : jsstring) :
  isIn options v = true <-> In v (map lit options).
Proof.
  unfold isIn. rewrite existsb_exists. split.
  - intros (o & Ho & E). apply str_eqb_eq in E. subst. now apply in_map.
  - intros H. apply in_map_iff in H. destruct H as (o & <- & Ho).
    exists o. split; [exact Ho | apply str_eqb_refl].
Qed.

Lemma run_items_messages (its : list item) (v : jsstring) (m : string) :
  In m (snd (run_items its v))
  -> In m (flat_map (fun it => match it with
                               | validator _ message => [message]
                               | sanitizer _ => []
                               end) its).
Proof.
  revert v. induction its as [|[f|ok message] its IH]; intros v; simpl.
  - auto.
  - apply IH.
  - specialize (IH v). destruct (run_items its v) as [v' errs]. simpl in *.
    destruct (ok v); simpl; intuition.
Qed.

Lemma chain_messages (c : chain) (body : Body) (m : string) :
  In m (snd (run_chain c body)) -> In m (messages c).
Proof.
  unfold run_chain, messages.
  destruct (body (field c)) as [s|], (optional c);
    try (intros []);
    match goal with
    | |- context [run_items ?its ?v] =>
        pose proof (run_items_messages its v m) as H;
        destruct (run_items its v); exact H
    end.
Qed.

Lemma validateSubmitRequest_fields : NoDup (map field validateSubmitRequest).
Proof.
  unfold validateSubmitRequest. simpl.
  repeat constructor; simpl; intuition discriminate.
Qed.

(** X11.  The errors of a submission are those of every chain, in
    the order of the chains, each chain judging its field of the
    request as it arrived: no chain stops the others, and what one
    chain rewrites does not change the verdict of another. *)
Theorem all_violations_reported (body : Body) :
  validation_errors body
  = flat_map (fun c => snd (run_chain c body)) validateSubmitRequest.
Proof.
  unfold validation_errors.
  apply chains_errors, validateSubmitRequest_fields.
Qed.

(** The verdict of an enumeration chain. *)
Lemma enumeration_verdict (f : Field) (options : list string) (m : string)
    (body : Body) :
  snd (run_chain {| field := f; optional := false;
                    items := [sanitizer trim; validator (isIn options) m] |}
         body)
  = if isIn options (trim (field_text body f)) then [] else [m].
Proof.
  unfold run_chain, field_text. cbn [field optional items].
  destruct (body f); reflexivity.
Qed.

Ltac elsewhere H :=
  first
    [ apply chain_messages in H; unfold messages in H; simpl in H;
      intuition discriminate
    | match type of H with
      | In _ (if ?b then _ else _) =>
          destruct b; simpl in H; intuition discriminate
      end ].

(** X12.  [projectType], [timeline] and [budget] are closed
    enumerations: the message of each is among the errors exactly when
    the trimmed text of the field (the empty text when the field is
    absent) is not one of the listed options. *)
Theorem enumerations_are_closed (body : Body) :
  (In "Invalid project type" (validation_errors body)
   <-> ~ In (trim (field_text body projectType)) (map lit project_types))
  /\ (In "Invalid timeline selection" (validation_errors body)
      <-> ~ In (trim (field_text body timeline)) (map lit timelines))
  /\ (In "Invalid budget selection" (validation_errors body)
      <-> ~ In (trim (field_text body budget)) (map lit budgets)).
Proof.
  unfold validation_errors.
  rewrite (chains_errors _ _ validateSubmitRequest_fields).
  unfold validateSubmitRequest. cbn [flat_map].
  rewrite !in_app_iff.
  fold project_types timelines budgets.
  rewrite !enumeration_verdict, <- !isIn_spec.
  split; [|split]; split.
  - intros [H|[H|[H|[H|[H|[H|[H|[H|[H|[H|[H|[]]]]]]]]]]]];
      elsewhere H.
  - intros H. do 3 right. left.
    destruct (isIn project_types _); [congruence | now left].
  - intros [H|[H|[H|[H|[H|[H|[H|[H|[H|[H|[H|[]]]]]]]]]]]];
      elsewhere H.
  - intros H. do 4 right. left.
    destruct (isIn timelines _); [congruence | now left].
  - intros [H|[H|[H|[H|[H|[H|[H|[H|[H|[H|[H|[]]]]]]]]]]]];
      elsewhere H.
  - intros H. do 5 right. left.
    destruct (isIn budgets _); [congruence | now left].
Qed.

(** Chains that skip an absent field leave it absent. *)
Lemma chains_keep_absent (cs : list chain) (f : Field) (body : Body) :
  (forall c, In c cs -> field c = f -> optional c = true) ->
  body f = None -> fst (run_chains cs body) f = None.
Proof.
  revert body. induction cs as [|c cs IH]; intros body Hopt Hf; [exact Hf|].
  simpl. destruct (run_chain c body) as [b' e] eqn:Hc.
  destruct (run_chains cs b') as [b'' e'] eqn:Hcs. simpl.
  change b'' with (fst (b'', e')). rewrite <- Hcs.
  apply IH; [intros c' Hin; apply Hopt; now right|].
  change b' with (fst (b', e)). rewrite <- Hc.
  destruct (Field_eqb (field c) f) eqn:E.
  - apply Field_eqb_eq in E. unfold run_chain.
    rewrite E, Hf, (Hopt c (or_introl eq_refl) E). exact Hf.
  - rewrite chain_body_local; [exact Hf|].
    intros Heq. symmetry in Heq. apply Field_eqb_eq in Heq. congruence.
Qed.

Lemma chain_skips (f : Field) (its : list item) (body : Body) :
  body f = None ->
  snd (run_chain {| field := f; optional := true; items := its |} body) = [].
Proof. unfold run_chain. cbn [field optional]. now intros ->. Qed.

(** X13.  An optional field that is absent from the request is
    skipped: it is still absent after the middleware ran, and the
    errors of the submission are those of the chains of the other
    fields. *)
Theorem absent_optional_field_is_skipped (body : Body) (f : Field) :
  In f optional_fields ->
  body f = None ->
  sanitized body f = None
  /\ validation_errors body = snd (run_chains (chains_but f) body).
Proof.
  intros Hin Hf. split.
  - apply chains_keep_absent; [|exact Hf].
    intros c Hc <-. revert Hin.
    unfold validateSubmitRequest in Hc. cbn [In] in Hc.
    repeat (destruct Hc as [<-|Hc]; [cbn; intuition discriminate|]).
    contradiction.
  - unfold validation_errors, chains_but.
    rewrite !chains_errors;
      [| unfold validateSubmitRequest; cbn [In optional_fields] in Hin;
         repeat (destruct Hin as [<-|Hin]; [|try contradiction]);
         simpl; repeat constructor; simpl; intuition discriminate
       | apply validateSubmitRequest_fields ].
    unfold validateSubmitRequest. cbn [In optional_fields] in Hin.
    repeat (destruct Hin as [<-|Hin]; [|try contradiction]);
      cbn [filter flat_map field negb Field_eqb];
      match type of Hf with
      | body ?f = None => rewrite (chain_skips f _ body Hf)
      end;
      reflexivity.
Qed.

(** X14.  A submission with a validation error is answered 400
    with the messages of all the errors, and changes nothing: the
    ledger file, the bucket, the table and the log are as before
    (nothing is read, rendered or stored). *)
Theorem invalid_submission_changes_nothing (env : Env) (body : Body)
    (st : State) :
  validation_errors body <> [] ->
  let st' := fst (submit_request cfg env body st) in
  snd (submit_request cfg env body st)
  = inr (validation_failed (validation_errors body))
  /\ disk st' = disk st /\ bucket st' = bucket st /\ table st' = table st
  /\ log st' = log st.
Proof.
  intros H. cbv zeta. rewrite (submit_request_invalid cfg env body st H).
  repeat split.
Qed.

End Fields.

(** ** Decimal numerals *)

Lemma lit_length (s : string) : List.length (lit s) = String.length s.
Proof.
  unfold lit. rewrite length_map.
  induction s as [|a s IH]; simpl; congruence.
Qed.

Lemma string_of_uint_length (d : Decimal.uint) :
  String.length (NilEmpty.string_of_uint d) = Decimal.nb_digits d.
Proof. induction d; simpl; congruence. Qed.

Lemma string_of_uint_digits (d : Decimal.uint) :
  Forall (fun c => is_digit c = true) (lit (NilEmpty.string_of_uint d)).
Proof.
  induction d; simpl; try constructor; auto.
Qed.

Lemma of_uint_acc_bound (l : Decimal.uint) (acc : positive) :
  (Z.pos acc * 10 ^ Z.of_nat (Decimal.nb_digits l)
   <= Z.pos (Pos.of_uint_acc l acc))%Z.
Proof.
  revert acc. induction l; intros acc; cbn [Decimal.nb_digits];
    cbn [Pos.of_uint_acc];
    [ simpl; lia
    | rewrite Nat2Z.inj_succ, Z.pow_succ_r by lia;
      eapply Z.le_trans; [|apply IHl];
      rewrite Z.mul_assoc;
      apply Z.mul_le_mono_nonneg_r;
      [apply Z.pow_nonneg; lia | lia] .. ].
Qed.

(** A numeral without leading zero is at least the power of ten of its
    length. *)
Lemma of_uint_bound (d : Decimal.uint) :
  Decimal.unorm d = d -> d <> Decimal.zero ->
  (10 ^ (Z.of_nat (Decimal.nb_digits d) - 1) <= Z.of_N (Pos.of_uint d))%Z.
Proof.
  intros Hn Hz.
  destruct d; cbn [Decimal.nb_digits Pos.of_uint Z.of_N];
    try (rewrite Nat2Z.inj_succ;
         replace (Z.succ (Z.of_nat (Decimal.nb_digits d)) - 1)%Z
           with (Z.of_nat (Decimal.nb_digits d)) by lia;
         eapply Z.le_trans; [|apply of_uint_acc_bound]; lia).
  - discriminate Hn.
  - exfalso. unfold Decimal.unorm in Hn. simpl Decimal.nzhead in Hn.
    pose proof (DecimalFacts.nb_digits_nzhead d) as Hle.
    destruct (Decimal.nzhead d) eqn:E; try discriminate Hn.
    + injection Hn as <-. now apply Hz.
    + injection Hn as ->. simpl in Hle. lia.
Qed.

Lemma to_uint_length (p : positive) (k : nat) :
  (Z.pos p < 10 ^ Z.of_nat k)%Z ->
  (Decimal.nb_digits (Pos.to_uint p) <= k)%nat.
Proof.
  intros Hp.
  pose proof (of_uint_bound (Pos.to_uint p)) as H.
  rewrite Unsigned.of_to in H.
  assert (Hn : Decimal.unorm (Pos.to_uint p) = Pos.to_uint p).
  { rewrite <- Unsigned.to_of, Unsigned.of_to. reflexivity. }
  specialize (H Hn (Unsigned.to_uint_nonzero p)). simpl Z.of_N in H.
  destruct (Nat.le_gt_cases (Decimal.nb_digits (Pos.to_uint p)) k) as [|Hgt];
    [assumption|exfalso].
  assert (10 ^ Z.of_nat k <= 10 ^ (Z.of_nat (Decimal.nb_digits (Pos.to_uint p)) - 1))%Z
    by (apply Z.pow_le_mono_r; lia).
  lia.
Qed.

(** A clock reading of at most 21 digits prints in at most 22 code
    units. *)
Lemma Number_toString_length (n : Z) :
  (Z.abs n < 10 ^ 21)%Z -> (List.length (Number_toString n) <= 22)%nat.
Proof.
  intros Hn. unfold Number_toString. rewrite lit_length.
  destruct n as [|p|p]; [simpl; lia | |]; simpl Z.to_int;
    unfold NilZero.string_of_int, NilZero.string_of_uint;
    pose proof (to_uint_length p 21 Hn) as Hlen;
    pose proof (Unsigned.to_uint_nonnil p) as Hnil;
    destruct (Pos.to_uint p) eqn:E; try congruence;
    rewrite <- E in *; simpl String.length;
    rewrite string_of_uint_length; lia.
Qed.

Lemma Number_toString_chars (n : Z) :
  Forall (fun c => filename_char c = true) (Number_toString n).
Proof.
  assert (D : forall d, Forall (fun c => filename_char c = true)
                          (lit (NilZero.string_of_uint d))).
  { intros d. apply Forall_impl with (P := fun c => is_digit c = true).
    - intros c Hc. unfold filename_char, is_alnum. rewrite Hc.
      now rewrite orb_true_r.
    - destruct d; try apply string_of_uint_digits.
      repeat constructor. }
  unfold Number_toString.
  destruct (Z.to_int n) as [d|d]; simpl NilZero.string_of_int; [apply D|].
  change (lit (String "-" (NilZero.string_of_uint d)))
    with (HYPHEN :: lit (NilZero.string_of_uint d)).
  constructor; [reflexivity | apply D].
Qed.

(** ** Sanitized output *)

Lemma remove_all_clean (class : char -> bool) (s : jsstring) :
  Forall (fun c => class c = false) (remove_all class s).
Proof.
  unfold remove_all. eapply Forall_impl; [|apply filter_kept].
  intros c Hc. cbv beta in Hc. now apply negb_true_iff in Hc.
Qed.

Lemma remove_all_fixed (class : char -> bool) (s : jsstring) :
  Forall (fun c => class c = false) s -> remove_all class s = s.
Proof.
  intros H. unfold remove_all. apply filter_fixed.
  eapply Forall_impl; [|exact H]. intros c Hc. cbv beta. now rewrite Hc.
Qed.

Lemma sanitizeForPDF_clean (v : value) :
  Forall (fun c => pdf_unsafe c = false) (sanitizeForPDF v).
Proof.
  destruct v; simpl sanitizeForPDF; try constructor.
  unfold sanitizeForPDF_string, substring0.
  apply Forall_prefix, remove_all_clean.
Qed.

(** X15.  [sanitizeForPDF] returns, for every input, a text with
    none of the control characters it removes and at most 10000 code
    units long; a string that has none of these characters and is at
    most 10000 code units long is returned as it is. *)
Theorem sanitizeForPDF_output (v : value) :
  Forall (fun c => pdf_unsafe c = false) (sanitizeForPDF v)
  /\ N.of_nat (List.length (sanitizeForPDF v)) <= 10000
  /\ (forall s, v = Str s ->
                Forall (fun c => pdf_unsafe c = false) s ->
                N.of_nat (List.length s) <= 10000 ->
                sanitizeForPDF v = s).
Proof.
  split; [apply sanitizeForPDF_clean|].
  destruct v; simpl sanitizeForPDF;
    try (split; [simpl; lia | discriminate]).
  unfold sanitizeForPDF_string, substring0.
  split.
  - rewrite length_firstn. lia.
  - intros s' E Hclean Hlen. injection E as ->.
    rewrite (remove_all_fixed _ _ Hclean). apply firstn_all2. lia.
Qed.

Lemma sanitizeFilename_fixed (s : jsstring) :
  Forall (fun c => filename_char c = true) s ->
  (List.length s <= 255)%nat ->
  sanitizeFilename s = s.
Proof.
  intros Hs Hlen. unfold sanitizeFilename, substring0, remove_all.
  rewrite filter_fixed.
  - now apply firstn_all2.
  - eapply Forall_impl; [|exact Hs]. intros c Hc. cbv beta.
    now rewrite Hc.
Qed.

(** ** The calls of [generatePDF] *)

Section Rendering.

Context {libs : Libs}.

Lemma labelled_clean (label : string) (request : value) (k : string) :
  Forall (fun c => pdf_unsafe c = false) (lit label) ->
  Forall (fun c => pdf_unsafe c = false) (lit label ++ safe request k).
Proof.
  intros H. apply Forall_app. split; [exact H | apply sanitizeForPDF_clean].
Qed.

Ltac clean :=
  solve
    [ exact I
    | apply labelled_clean; vm_compute; repeat constructor
    | apply sanitizeForPDF_clean
    | vm_compute; repeat constructor ].

Ltac calls H :=
  repeat match type of H with
    | In _ (if ?b then _ else _) => destruct b
    | In _ (_ ++ _) => apply in_app_or in H; destruct H as [H|H]
    end;
  cbn [In] in H;
  repeat (destruct H as [<-|H]; [clean|]);
  try contradiction.

(** X16.  Every call of [generatePDF] on the document writes a
    text without the control characters [sanitizeForPDF] removes, but
    for the line of the submission date, whatever the request holds. *)
Theorem request_fields_are_sanitized (request : value) (op : pdfop) :
  In op (pdf_calls request) ->
  op = text (lit "Submitted: " ++ toLocaleString (get request "createdAt"))
         centered
  \/ clean_call op.
Proof.
  unfold pdf_calls. rewrite !in_app_iff.
  intros [H|[H|[H|[H|[H|[H|[H|H]]]]]]].
  - cbn [header In] in H.
    destruct H as [<-|[<-|[<-|[<-|[<-|[<-|[<-|[<-|[]]]]]]]]];
      try (right; clean); now left.
  - right. unfold client_information in H. calls H.
  - right. unfold project_details in H. calls H.
  - right. unfold project_description in H. calls H.
  - right. unfold design_preferences in H. cbv zeta in H. calls H.
  - right. unfold key_features in H. cbv zeta in H. calls H.
  - right. unfold reference_websites in H. cbv zeta in H. calls H.
  - right. unfold footer in H. calls H.
Qed.

End Rendering.

(** ** The handler, stage by stage *)

Section Stages.

Context {libs : Libs}.
Variable cfg : Config.

Ltac run :=
  cbv [save_request attach_pdf mirror bind ret throw try_catch enter emit
       console_error new_object deref set_property fs_readFile JSON_parse
       readRequests JSON_stringify fs_writeFile writeRequests Array_push
       generatePDF uploadPDFToSupabase saveRequestToDatabase];
  cbn [disk bucket table heap log fst snd List.length nth update negb app
       map].

Ltac strings :=
  repeat match goal with
    | |- context [trimmed ?x] =>
        let s := fresh "s" in
        let E := fresh "E" in
        destruct (trimmed_string x) as [s E]; rewrite E; clear E
    end.

(** X17.  When the ledger file holds JSON that is not an array,
    a valid submission is answered with the generic 500: the ledger
    file is left as it is, nothing is rendered or stored, and the
    [TypeError] is logged. *)
Theorem unusable_ledger_fails_submissions (env : Env) (body : Body)
    (st : State) (v : value) :
  validation_errors body = [] ->
  ledger st = inr v ->
  (forall entries, v <> Arr entries) ->
  submit_request cfg env body st
  = ({| disk := disk st; bucket := bucket st; table := table st;
        heap := [new_request env (sanitized body)];
        log := ConsoleError TypeError :: ReadLedger :: log st |},
     inr generic_failure).
Proof.
  intros Hv Hl Hna.
  rewrite (submit_request_valid cfg env body st Hv).
  cbv [try_catch bind]. rewrite save_request_result, Hl.
  destruct v as [| | | | |entries|]; try reflexivity.
  now destruct (Hna entries).
Qed.

(** The PDF stage, with what it stores. *)
Lemma attach_pdf_stores (env : Env) (r : value) (d : file) b t l :
  exists l',
    attach_pdf cfg env 0%nat
      {| disk := d; bucket := b; table := t; heap := [r]; log := l |}
    = ({| disk := d;
          bucket := match pdfkit env (pdf_calls r) with
                    | Some pdfBuffer =>
                        if published cfg env r
                        then b ++ [(sanitizeFilename (pdf_fileName env r),
                                    pdfBuffer)]
                        else b
                    | None => b
                    end;
          table := t;
          heap := [if published cfg env r
                   then set r "pdfUrl"
                          (Str (public_url cfg (pdf_fileName env r)))
                   else r];
          log := l' |}, inr tt)
    /\ (supabase cfg = false ->
        l' = match pdfkit env (pdf_calls r) with
             | Some _ => RenderPDF :: l
             | None => ConsoleError RenderError :: RenderPDF :: l
             end).
Proof.
  unfold attach_pdf, published. run.
  destruct (pdfkit env (pdf_calls r)) as [buf|]; run;
    [|eexists; split; [reflexivity | auto]].
  destruct (supabase cfg); run; [|eexists; split; [reflexivity | auto]].
  destruct (N.of_nat (List.length buf) =? 0); run;
    [eexists; split; [reflexivity | discriminate]|].
  destruct (_ <? _); run; [eexists; split; [reflexivity | discriminate]|].
  destruct (upload_fails env); run;
    eexists; (split; [reflexivity | discriminate]).
Qed.

(** A valid submission whose record was written: what each store holds
    afterwards. *)
Lemma submit_request_stores (env : Env) (body : Body) (st : State)
    (old : list value) :
  validation_errors body = [] ->
  ledger st = inr (Arr old) ->
  write_fails env = false ->
  let r0 := new_request env (sanitized body) in
  let r1 := if published cfg env r0
            then set r0 "pdfUrl" (Str (public_url cfg (pdf_fileName env r0)))
            else r0 in
  exists l',
    submit_request cfg env body st
    = ({| disk := File (Json (jsonify (Arr (old ++ [r0]))));
          bucket := match pdfkit env (pdf_calls r0) with
                    | Some pdfBuffer =>
                        if published cfg env r0
                        then bucket st
                             ++ [(sanitizeFilename (pdf_fileName env r0),
                                  pdfBuffer)]
                        else bucket st
                    | None => bucket st
                    end;
          table := if supabase cfg && negb (insert_fails env)
                   then table st ++ [database_row r1] else table st;
          heap := [r1]; log := l' |}, inr submitted)
    /\ (supabase cfg = false ->
        l' = match pdfkit env (pdf_calls r0) with
             | Some _ => [RenderPDF]
             | None => [ConsoleError RenderError; RenderPDF]
             end ++ WriteLedger :: ReadLedger :: log st).
Proof.
  intros Hv Hl Hw r0 r1.
  rewrite (submit_request_valid cfg env body st Hv).
  cbv [try_catch bind].
  rewrite save_request_result, Hl, Hw. cbv beta iota. fold r0.
  destruct (attach_pdf_stores env r0
              (File (Json (jsonify (Arr (old ++ [r0])))))
              (bucket st) (table st) (WriteLedger :: ReadLedger :: log st))
    as (l' & -> & Hlog).
  fold r1.
  unfold mirror at 1. destruct (supabase cfg) eqn:Hs.
  - destruct (mirror_result cfg env r1
                (File (Json (jsonify (Arr (old ++ [r0])))))
                (match pdfkit env (pdf_calls r0) with
                 | Some pdfBuffer =>
                     if published cfg env r0
                     then bucket st
                          ++ [(sanitizeFilename (pdf_fileName env r0),
                               pdfBuffer)]
                     else bucket st
                 | None => bucket st
                 end) (table st) l') as (l'' & E).
    unfold mirror in E. rewrite Hs in E. rewrite E.
    cbv [ret]. exists l''. split; [reflexivity | discriminate].
  - cbv [ret]. exists l'. split; [reflexivity|].
    intros _. rewrite (Hlog eq_refl). now destruct (pdfkit env (pdf_calls r0)).
Qed.

(** X18.  Without Supabase, a valid submission whose record is
    written is answered 200 and the ledger is the only store that
    changes: the PDF is rendered (a failure is logged) and dropped, the
    bucket and the table are not contacted, and the record has no
    [pdfUrl]. *)
Theorem without_supabase_only_the_ledger (env : Env) (body : Body)
    (st : State) (old : list value) :
  supabase cfg = false ->
  validation_errors body = [] ->
  ledger st = inr (Arr old) ->
  write_fails env = false ->
  let r0 := new_request env (sanitized body) in
  submit_request cfg env body st
  = ({| disk := File (Json (jsonify (Arr (old ++ [r0]))));
        bucket := bucket st; table := table st; heap := [r0];
        log := match pdfkit env (pdf_calls r0) with
               | Some _ => [RenderPDF]
               | None => [ConsoleError RenderError; RenderPDF]
               end ++ WriteLedger :: ReadLedger :: log st |},
     inr submitted).
Proof.
  intros Hs Hv Hl Hw r0.
  destruct (submit_request_stores env body st old Hv Hl Hw)
    as (l' & E & Hlog).
  fold r0 in E, Hlog. rewrite E, (Hlog Hs).
  unfold published. rewrite Hs. simpl andb.
  now destruct (pdfkit env (pdf_calls r0)).
Qed.

(** X19.  [uploadPDFToSupabase] contacts the storage only with a
    client and a buffer of 1 to 10485760 bytes; otherwise it throws an
    [Error] and the state is unchanged.  When it contacts the storage,
    the key is the sanitized name, and the object is stored unless the
    storage answers with an error, which is thrown. *)
Theorem upload_is_guarded (env : Env) (pdfBuffer : Buffer)
    (fileName : jsstring) (st : State) :
  let size := N.of_nat (List.length pdfBuffer) in
  let key := sanitizeFilename fileName in
  let contacted :=
    {| disk := disk st; bucket := bucket st; table := table st;
       heap := heap st; log := StorageUpload key :: log st |} in
  (supabase cfg = false \/ size = 0 \/ 10485760 < size ->
   exists message,
     uploadPDFToSupabase cfg env pdfBuffer fileName st
     = (st, inl (Error message)))
  /\ (supabase cfg = true -> 0 < size <= 10485760 ->
      uploadPDFToSupabase cfg env pdfBuffer fileName st
      = if upload_fails env then (contacted, inl StorageError)
        else ({| disk := disk st;
                 bucket := bucket st ++ [(key, pdfBuffer)];
                 table := table st; heap := heap st;
                 log := StorageUpload key :: log st |},
              inr (Obj [(lit "path", Str key)]))).
Proof.
  cbv zeta. unfold uploadPDFToSupabase, bind, emit, throw.
  change (10 * 1024 * 1024) with 10485760.
  split.
  - intros [Hs | [H0 | Hbig]].
    + rewrite Hs. simpl. eauto.
    + destruct (negb (supabase cfg)); [eauto|].
      rewrite H0. simpl. eauto.
    + destruct (negb (supabase cfg)); [eauto|].
      destruct (N.of_nat (List.length pdfBuffer) =? 0); [eauto|].
      apply N.ltb_lt in Hbig. rewrite Hbig. eauto.
  - intros Hs [Hpos Hle]. rewrite Hs. simpl negb. cbv iota.
    destruct (N.eqb_spec (N.of_nat (List.length pdfBuffer)) 0) as [E|_].
    + rewrite E in Hpos. now apply N.lt_irrefl in Hpos.
    + destruct (N.ltb_spec 10485760 (N.of_nat (List.length pdfBuffer)))
        as [Hlt|_].
      * exfalso. apply (N.lt_irrefl 10485760).
        eapply N.lt_le_trans; eauto.
      * destruct (upload_fails env); destruct st; reflexivity.
Qed.

(** X20.  The stages after the ledger write never throw and never
    touch the ledger file, in any state and for any request: a failure
    of rendering, upload or insertion is caught inside its stage. *)
Theorem downstream_stages_never_throw (env : Env) (request : loc)
    (st : State) :
  exists st1 st2,
    attach_pdf cfg env request st = (st1, inr tt)
    /\ mirror cfg env request st1 = (st2, inr tt)
    /\ disk st2 = disk st.
Proof.
  destruct (attach_pdf_total cfg env request st) as (st1 & E1 & Hd1 & _).
  destruct (mirror_total cfg env request st1) as (st2 & E2 & Hd2 & _).
  exists st1, st2. repeat split; auto. congruence.
Qed.


(** The name suggested for the PDF is made of characters
    [sanitizeFilename] keeps, and is short enough to be kept whole. *)
Lemma pdf_fileName_kept (env : Env) (body : Body) :
  (Z.abs (now_id env) < 10 ^ 21)%Z ->
  (Z.abs (now_file env) < 10 ^ 21)%Z ->
  sanitizeFilename (pdf_fileName env (new_request env body))
  = pdf_fileName env (new_request env body).
Proof.
  intros Hid Hfile. apply sanitizeFilename_fixed.
  - unfold pdf_fileName. rewrite new_request_id. cbn [to_string].
    repeat (apply Forall_app; split);
      try apply Number_toString_chars;
      vm_compute; repeat constructor.
  - unfold pdf_fileName. rewrite new_request_id. cbn [to_string].
    rewrite !length_app, !lit_length.
    pose proof (Number_toString_length _ Hid).
    pose proof (Number_toString_length _ Hfile).
    cbn [String.length]. lia.
Qed.

(** X21.  With clock readings of at most 21 digits, the name
    suggested for the PDF is stored as it is, so that when rendering
    and publishing succeed the object is stored under
    [design-request-<id>-<time>.pdf] and the [pdfUrl] set on the
    request is the public address of that very key. *)
Theorem public_url_names_the_stored_key (env : Env) (body : Body)
    (st : State) (old : list value) :
  (Z.abs (now_id env) < 10 ^ 21)%Z ->
  (Z.abs (now_file env) < 10 ^ 21)%Z ->
  validation_errors body = [] ->
  ledger st = inr (Arr old) ->
  write_fails env = false ->
  let r0 := new_request env (sanitized body) in
  let st' := fst (submit_request cfg env body st) in
  published cfg env r0 = true ->
  exists pdfBuffer,
    pdfkit env (pdf_calls r0) = Some pdfBuffer
    /\ bucket st' = bucket st ++ [(pdf_fileName env r0, pdfBuffer)]
    /\ heap st'
       = [set r0 "pdfUrl"
            (Str (to_string (supabaseUrl cfg)
                  ++ lit "/storage/v1/object/public/"
                  ++ to_string (supabaseBucket cfg) ++ lit "/"
                  ++ pdf_fileName env r0))].
Proof.
  intros Hid Hfile Hv Hl Hw r0 st' Hp.
  destruct (submit_request_stores env body st old Hv Hl Hw)
    as (l' & E & _).
  subst st'. rewrite E. cbn [fst bucket heap]. fold r0. rewrite Hp.
  unfold published in Hp.
  destruct (pdfkit env (pdf_calls r0)) as [pdfBuffer|]; [|discriminate].
  exists pdfBuffer. subst r0. rewrite pdf_fileName_kept by assumption.
  repeat split.
Qed.

(** X22.  With Supabase and an insertion that succeeds, a valid
    submission whose record is written adds one row to the table: its
    plain columns repeat the properties of the record, its nullable
    columns hold the property or [null] when it is the empty string,
    and [pdf_url] is the public address when rendering and publishing
    succeeded, [null] otherwise. *)
Theorem mirror_row_matches_record (env : Env) (body : Body) (st : State)
    (old : list value) :
  supabase cfg = true ->
  insert_fails env = false ->
  validation_errors body = [] ->
  ledger st = inr (Arr old) ->
  write_fails env = false ->
  let r0 := new_request env (sanitized body) in
  exists row,
    table (fst (submit_request cfg env body st)) = table st ++ [row]
    /\ Forall (fun cp => get row (fst cp) = get r0 (snd cp)) copied_columns
    /\ Forall (fun cp => exists s,
                   get r0 (snd cp) = Str s
                   /\ get row (fst cp) = if nonempty s then Str s else Null)
         nullable_columns
    /\ get row "pdf_url"
       = if published cfg env r0
         then Str (public_url cfg (pdf_fileName env r0)) else Null.
Proof.
  intros Hs Hi Hv Hl Hw r0.
  destruct (submit_request_stores env body st old Hv Hl Hw)
    as (l' & E & _).
  rewrite E. cbn [fst table]. rewrite Hs, Hi. cbn [negb andb].
  eexists. split; [reflexivity|]. clear E.
  subst r0. unfold new_request, copied_columns, nullable_columns. strings.
  destruct (published cfg env _);
    (split; [repeat (apply Forall_cons; [reflexivity|]); apply Forall_nil|]);
    (split; [repeat (apply Forall_cons; [eexists; split; reflexivity|]);
             apply Forall_nil
            | try reflexivity]).
  unfold public_url. destruct (to_string (supabaseUrl cfg)); reflexivity.
Qed.

End Stages.

(** ** Submissions, then the listing *)

Section Journey.

Context {libs : Libs}.
Variable cfg : Config.

Lemma record_has_email (submission : Env * Body) :
  exists props e,
    record_of submission = Obj props /\ lookup (lit "email") props = Str e.
Proof.
  unfold record_of, new_request.
  destruct (trimmed_string (sanitized (snd submission) email)) as (s & E).
  eexists. exists (xss (remove_all is_nul s)).
  split; [reflexivity|]. cbn. rewrite E. reflexivity.
Qed.

(** X23.  After valid submissions whose writes succeed, handled
    one after the other on a new installation, the listing answers 200
    with one entry for each submission, in the order of arrival: the
    record of the submission with its email masked. *)
Theorem listing_after_submissions (submissions : list (Env * Body)) :
  Forall (fun s => validation_errors (snd s) = []
                   /\ write_fails (fst s) = false) submissions ->
  exists out,
    snd (get_requests (serve cfg submissions installed))
    = inr {| status := 200; json := Arr out |}
    /\ Forall2 masked_copy (map record_of submissions) out.
Proof.
  intros H.
  pose proof (ledger_in_arrival_order cfg submissions H installed []
                eq_refl eq_refl) as Hl.
  rewrite get_requests_result, Hl. cbn [app].
  destruct (map_requests_masks (map record_of submissions)) as (out & -> & Hout).
  - apply Forall_forall. intros r Hr. apply in_map_iff in Hr.
    destruct Hr as (s & <- & _). apply record_has_email.
  - exists out. split; [reflexivity | exact Hout].
Qed.

End Journey.

(** ** The properties of the rest of the server, on the example inputs *)

Lemma cors_default_policy_witness :
  cors_origin None (Some (lit "https://cerneydesigns.com")) = Some (inr tt)
  /\ cors_origin None (Some (lit "https://my-site.vercel.app"))
     = Some (inr tt).
Proof.
  split.
  - apply (cors_default_policy (lit "https://cerneydesigns.com"));
      [vm_compute; discriminate | right; left; reflexivity].
  - apply (cors_default_policy (lit "https://my-site.vercel.app"));
      [vm_compute; discriminate|].
    right. right.
    exists [], (lit "my-site"), 46, 46, []. vm_compute.
    repeat split; repeat constructor.
Defined.

Lemma wildcard_origin_is_unanchored_witness :
  cors_origin None
    (Some (lit "http://evil.example/?" ++ lit "https://" ++ lit "a"
           ++ lit "xvercel.app" ++ lit ".evil.example"))
  = Some (inr tt).
Proof.
  apply (wildcard_origin_is_unanchored (lit "http://evil.example/?")
           (lit "a") (lit ".evil.example")).
  vm_compute. repeat constructor.
Defined.

Lemma configured_origins_are_exact_witness :
  let ALLOWED_ORIGINS := Some (lit "https://a.example, https://b.example") in
  cors_origin ALLOWED_ORIGINS (Some (lit "https://a.example")) = Some (inr tt)
  /\ cors_origin ALLOWED_ORIGINS (Some (lit "https://b.example"))
     = Some (inl cors_error).
Proof.
  cbv zeta. split.
  - apply (configured_origins_are_exact
             (Some (lit "https://a.example, https://b.example"))
             (lit "https://a.example")).
    + vm_compute. discriminate.
    + vm_compute. repeat constructor.
    + vm_compute. left. reflexivity.
  - apply (configured_origins_are_exact
             (Some (lit "https://a.example, https://b.example"))
             (lit "https://b.example")).
    + vm_compute. discriminate.
    + vm_compute. repeat constructor.
    + vm_compute. intros [H|[H|[]]]; discriminate H.
Defined.

Lemma listing_masks_emails_witness :
  exists out,
    snd (get_requests (example_state (File (Json (Arr [carol])))))
    = inr {| status := 200; json := Arr out |}
    /\ Forall2 masked_copy [carol] out.
Proof.
  apply (listing_masks_emails (example_state (File (Json (Arr [carol]))))
           [carol]).
  - reflexivity.
  - repeat constructor. eexists. eexists. split; reflexivity.
Defined.

Lemma listing_of_unreadable_ledger_witness :
  snd (get_requests (example_state (File Malformed)))
  = inr {| status := 200; json := Arr [] |}.
Proof.
  apply (listing_of_unreadable_ledger (example_state (File Malformed))).
  right. right. reflexivity.
Defined.

Lemma listing_fails_as_a_whole_witness :
  snd (get_requests (example_state (File (Json (Arr [carol; Null])))))
  = inr fetch_failed.
Proof.
  apply (listing_fails_as_a_whole
           (example_state (File (Json (Arr [carol; Null]))))
           (Arr [carol; Null])).
  - reflexivity.
  - right. left. exists [carol; Null].
    split; [reflexivity | right; left; reflexivity].
Defined.

Lemma absent_optional_field_is_skipped_witness :
  sanitized (libs := example_libs) ada phoneNumber = None
  /\ validation_errors (libs := example_libs) ada
     = snd (run_chains (chains_but (libs := example_libs) phoneNumber) ada).
Proof.
  apply (absent_optional_field_is_skipped (libs := example_libs) ada
           phoneNumber).
  - left. reflexivity.
  - reflexivity.
Defined.

Lemma invalid_submission_changes_nothing_witness :
  let body := ada_describes "Too short" in
  let run := submit_request (libs := example_libs) example_config
               (example_env example_now) body installed in
  snd run
  = inr (validation_failed (validation_errors (libs := example_libs) body))
  /\ disk (fst run) = disk installed /\ bucket (fst run) = bucket installed
  /\ table (fst run) = table installed /\ log (fst run) = log installed.
Proof.
  cbv zeta.
  apply (invalid_submission_changes_nothing (libs := example_libs)
           example_config (example_env example_now)
           (ada_describes "Too short") installed).
  vm_compute. discriminate.
Defined.

Lemma request_fields_are_sanitized_witness :
  let op := text (lit "Name: " ++ safe carol "clientName") indented in
  In op (pdf_calls (libs := example_libs) carol)
  /\ (op = text (lit "Submitted: "
                 ++ toLocaleString (Libs := example_libs)
                      (get carol "createdAt")) centered
      \/ clean_call op).
Proof.
  cbv zeta.
  assert (H : In (text (lit "Name: " ++ safe carol "clientName") indented)
                (pdf_calls (libs := example_libs) carol)).
  { vm_compute. do 14 right. left. reflexivity. }
  split; [exact H|].
  apply (request_fields_are_sanitized (libs := example_libs) carol _ H).
Defined.

Lemma unusable_ledger_fails_submissions_witness :
  let st := example_state (File (Json (Obj []))) in
  let env := example_env example_now in
  submit_request (libs := example_libs) example_config env ada st
  = ({| disk := disk st; bucket := bucket st; table := table st;
        heap := [new_request (libs := example_libs) env
                   (sanitized (libs := example_libs) ada)];
        log := ConsoleError TypeError :: ReadLedger :: log st |},
     inr generic_failure).
Proof.
  cbv zeta.
  apply (unusable_ledger_fails_submissions (libs := example_libs)
           example_config (example_env example_now) ada
           (example_state (File (Json (Obj [])))) (Obj [])).
  - vm_compute. reflexivity.
  - reflexivity.
  - discriminate.
Defined.

Lemma without_supabase_only_the_ledger_witness :
  let env := example_env example_now in
  let r0 := new_request (libs := example_libs) env
              (sanitized (libs := example_libs) ada) in
  submit_request (libs := example_libs) example_config_local env ada
    installed
  = ({| disk := File (Json (jsonify (Arr ([] ++ [r0]))));
        bucket := bucket installed; table := table installed; heap := [r0];
        log := match pdfkit env (pdf_calls (libs := example_libs) r0) with
               | Some _ => [RenderPDF]
               | None => [ConsoleError RenderError; RenderPDF]
               end ++ WriteLedger :: ReadLedger :: log installed |},
     inr submitted).
Proof.
  cbv zeta.
  apply (without_supabase_only_the_ledger (libs := example_libs)
           example_config_local (example_env example_now) ada installed []).
  - reflexivity.
  - vm_compute. reflexivity.
  - reflexivity.
  - reflexivity.
Defined.

Lemma public_url_names_the_stored_key_witness :
  let env := example_env example_now in
  let r0 := new_request (libs := example_libs) env
              (sanitized (libs := example_libs) ada) in
  let st' := fst (submit_request (libs := example_libs) example_config env
                    ada installed) in
  exists pdfBuffer,
    pdfkit env (pdf_calls (libs := example_libs) r0) = Some pdfBuffer
    /\ bucket st' = bucket installed ++ [(pdf_fileName env r0, pdfBuffer)]
    /\ heap st'
       = [set r0 "pdfUrl"
            (Str (to_string (supabaseUrl example_config)
                  ++ lit "/storage/v1/object/public/"
                  ++ to_string (supabaseBucket example_config) ++ lit "/"
                  ++ pdf_fileName env r0))].
Proof.
  cbv zeta.
  apply (public_url_names_the_stored_key (libs := example_libs)
           example_config (example_env example_now) ada installed []).
  - vm_compute. reflexivity.
  - vm_compute. reflexivity.
  - vm_compute. reflexivity.
  - reflexivity.
  - reflexivity.
  - vm_compute. reflexivity.
Defined.

Lemma mirror_row_matches_record_witness :
  let env := example_env example_now in
  let r0 := new_request (libs := example_libs) env
              (sanitized (libs := example_libs) ada) in
  exists row,
    table (fst (submit_request (libs := example_libs) example_config env
                  ada installed))
    = table installed ++ [row]
    /\ Forall (fun cp => get row (fst cp) = get r0 (snd cp)) copied_columns
    /\ Forall (fun cp => exists s,
                   get r0 (snd cp) = Str s
                   /\ get row (fst cp) = if nonempty s then Str s else Null)
         nullable_columns
    /\ get row "pdf_url"
       = if published (libs := example_libs) example_config env r0
         then Str (public_url example_config (pdf_fileName env r0))
         else Null.
Proof.
  cbv zeta.
  apply (mirror_row_matches_record (libs := example_libs) example_config
           (example_env example_now) ada installed []).
  - reflexivity.
  - reflexivity.
  - vm_compute. reflexivity.
  - reflexivity.
  - reflexivity.
Defined.

Lemma listing_after_submissions_witness :
  let env := example_env example_now in
  let submissions := [(env, ada); (env, bob)] in
  exists out,
    snd (get_requests
           (serve (libs := example_libs) example_config submissions
              installed))
    = inr {| status := 200; json := Arr out |}
    /\ Forall2 masked_copy
         (map (record_of (libs := example_libs)) submissions) out.
Proof.
  cbv zeta.
  apply (listing_after_submissions (libs := example_libs) example_config
           [(example_env example_now, ada); (example_env example_now, bob)]).
  repeat constructor; vm_compute; reflexivity.
Defined.
